(** * Dynamic form client: validation, navigation and login flow

    A shallow embedding of [src/App.tsx] (the [App] component with its
    [registerUser] handler, and the [DynamicForm] component with
    [validateSection], [handleInputChange], [goToNextSection],
    [goToPrevSection] and the checkbox [onChange] handler), followed by
    the properties of the specification that concern them.

    Modelling conventions.
    - A React component's state is a record; an event handler is a
      function from the state of the render it closes over to the state
      of the next render.  Every [setX] call of a handler writes the next
      state, every read is a read of the closed-over state.
    - A JavaScript object used as a dictionary ([Record<string, _>]) is a
      [gmap string _]; a missing key reads as [undefined], here [None].
      That is exact for the keys that name no member of
      [Object.prototype] ([JSObject.plainKey]): under an inherited name
      an unset key reads the inherited member.  The theorems that rest
      on the read of a key that may be unset, or on the verdict of a
      whole section, take the plainness of the field ids as a
      hypothesis.
    - A JavaScript string is a [string]; one character stands for one
      code unit (those below 256 are covered), so [String.length] is
      [.length].
    - A JavaScript number that holds an index or a length bound is a [Z].
    - A thrown exception is an explicit result in a small state and
      exception monad. *)

From Stdlib Require Import ZArith String Ascii List Lia Decimal DecimalString.
From stdpp Require Import base gmap strings list.

(** ** JavaScript primitives used by the components *)

Module JS.

(** Code units below 256 that [String.prototype.trim] strips: TAB, LF,
    VT, FF, CR, SP and NBSP. *)
Definition isWhiteSpace (c : ascii) : bool :=
  existsb (N.eqb (N_of_ascii c)) [9; 10; 11; 12; 13; 32; 160]%N.

Fixpoint trimStart (s : string) : string :=
  match s with
  | EmptyString => EmptyString
  | String c s' => if isWhiteSpace c then trimStart s' else s
  end.

Fixpoint trimEnd (s : string) : string :=
  match s with
  | EmptyString => EmptyString
  | String c s' =>
      match trimEnd s' with
      | EmptyString => if isWhiteSpace c then EmptyString else String c EmptyString
      | t => String c t
      end
  end.

Definition trim (s : string) : string := trimEnd (trimStart s).

(** [ToBoolean] on a string: only the empty string is falsy. *)
Definition truthyString (s : string) : bool :=
  match s with EmptyString => false | String _ _ => true end.

(** [ToBoolean] on [string | undefined]. *)
Definition truthyOptString (o : option string) : bool :=
  match o with None => false | Some s => truthyString s end.

(** [a || b] on [string | undefined] with a string default. *)
Definition orElse (o : option string) (d : string) : string :=
  match o with
  | Some s => if truthyString s then s else d
  | None => d
  end.

(** [`${n}`] for an integral number of magnitude below 10^21, where the
    template literal prints plain decimal digits. *)
Definition numberToString (n : Z) : string :=
  NilZero.string_of_int (Z.to_int n).

(** [arr[i]]: [undefined] outside the array. *)
Definition index {A} (arr : list A) (i : Z) : option A :=
  if (i <? 0)%Z then None else arr !! Z.to_nat i.

(** [arr.indexOf(x)] on an array of strings. *)
Fixpoint indexOfFrom (x : string) (arr : list string) (i : Z) : Z :=
  match arr with
  | [] => (-1)%Z
  | y :: arr' => if String.eqb y x then i else indexOfFrom x arr' (i + 1)%Z
  end.

Definition indexOf (arr : list string) (x : string) : Z := indexOfFrom x arr 0%Z.

(** [arr.splice(i, 1)] for an index [i >= 0]. *)
Definition splice1 (arr : list string) (i : Z) : list string :=
  delete (Z.to_nat i) arr.

End JS.

(** ** Objects used as dictionaries *)

Module JSObject.

(** The names every object literal inherits from [Object.prototype].  A
    read [o[k]] under such a name finds the inherited member, a truthy
    value that is neither a string nor an array, unless [o] has a
    property [k] of its own; an assignment [o["__proto__"] = text]
    stores nothing. *)
Definition inheritedKeys : list string :=
  [ "constructor"; "hasOwnProperty"; "isPrototypeOf"; "propertyIsEnumerable";
    "toLocaleString"; "toString"; "valueOf"; "__proto__";
    "__defineGetter__"; "__defineSetter__"; "__lookupGetter__"; "__lookupSetter__" ].

Definition isInherited (k : string) : bool :=
  existsb (String.eqb k) inheritedKeys.

(** The keys under which an object reads and writes as a finite map. *)
Definition plainKey (k : string) : Prop := isInherited k = false.

End JSObject.

(** ** The [DynamicForm] component *)

Module DynamicForm.

Inductive FieldType :=
  text | tel | email | textarea | date | dropdown | radio | checkbox.

Record FormFieldOption := {
  optionValue : string;
  optionLabel : string;
  optionDataTestId : option string
}.

Record FormFieldValidation := { message : string }.

Record FormField := {
  fieldId : string;
  type : FieldType;
  label : string;
  placeholder : option string;
  required : bool;
  dataTestId : string;
  validation : option FormFieldValidation;
  options : option (list FormFieldOption);
  maxLength : option Z;
  minLength : option Z
}.

Record FormSection := {
  sectionId : Z;
  title : string;
  description : string;
  fields : list FormField
}.

Record FormData := {
  formTitle : string;
  formId : string;
  version : string;
  sections : list FormSection
}.

(** What [handleInputChange] ever stores: the string of an input,
    select or radio, or the array of a checkbox group. *)
Inductive FieldValue :=
| VString (s : string)
| VList (l : list string).

Record State := {
  currentSection : Z;
  formValues : gmap string FieldValue;
  formErrors : gmap string string
}.

Definition initial : State :=
  {| currentSection := 0; formValues := ∅; formErrors := ∅ |}.

(** [ToBoolean] on a stored value read with [formValues[id]]: undefined
    and the empty string are falsy, every array is truthy. *)
Definition truthy (value : option FieldValue) : bool :=
  match value with
  | None => false
  | Some (VString s) => JS.truthyString s
  | Some (VList _) => true
  end.

(** [typeof value === "string" && !value.trim()] *)
Definition isBlankString (value : option FieldValue) : bool :=
  match value with
  | Some (VString s) => negb (JS.truthyString (JS.trim s))
  | _ => false
  end.

(** [Array.isArray(value) && value.length === 0] *)
Definition isEmptyArray (value : option FieldValue) : bool :=
  match value with
  | Some (VList l) => (length l =? 0)%nat
  | _ => false
  end.

(** The condition of the first [if] of the [forEach] callback. *)
Definition requiredRule (field : FormField) (value : option FieldValue) : bool :=
  (required field && (negb (truthy value) || isBlankString value))
  || isEmptyArray value.

(** The condition of the second [if]. *)
Definition minLengthRule (field : FormField) (value : option FieldValue) : bool :=
  match minLength field with
  | Some m =>
      truthy value &&
      match value with
      | Some (VString s) => (Z.of_nat (String.length s) <? m)%Z
      | _ => false
      end
  | None => false
  end.

(** The condition of the third [if]. *)
Definition maxLengthRule (field : FormField) (value : option FieldValue) : bool :=
  match maxLength field with
  | Some m =>
      truthy value &&
      match value with
      | Some (VString s) => (m <? Z.of_nat (String.length s))%Z
      | _ => false
      end
  | None => false
  end.

Definition requiredMessage (field : FormField) : string :=
  label field +:+ " is required".

Definition minLengthMessage (field : FormField) (m : Z) : string :=
  label field +:+ " must be at least " +:+ JS.numberToString m +:+ " characters".

Definition maxLengthMessage (field : FormField) (m : Z) : string :=
  label field +:+ " must be at most " +:+ JS.numberToString m +:+ " characters".

(** The locals [newErrors] and [isValid] of [validateSection]. *)
Definition Acc : Type := gmap string string * bool.

Definition reject (field : FormField) (msg : string) (acc : Acc) : Acc :=
  (<[fieldId field := msg]> acc.1, false).

Definition requiredStep (field : FormField) (value : option FieldValue) (acc : Acc) : Acc :=
  if requiredRule field value then reject field (requiredMessage field) acc else acc.

Definition minLengthStep (field : FormField) (value : option FieldValue) (acc : Acc) : Acc :=
  match minLength field with
  | Some m =>
      if minLengthRule field value then reject field (minLengthMessage field m) acc else acc
  | None => acc
  end.

Definition maxLengthStep (field : FormField) (value : option FieldValue) (acc : Acc) : Acc :=
  match maxLength field with
  | Some m =>
      if maxLengthRule field value then reject field (maxLengthMessage field m) acc else acc
  | None => acc
  end.

(** The body of the [forEach] callback. *)
Definition validateField (values : gmap string FieldValue) (acc : Acc) (field : FormField) : Acc :=
  let value := values !! fieldId field in
  maxLengthStep field value (minLengthStep field value (requiredStep field value acc)).

(** The loop of [validateSection]: the final [newErrors] and [isValid]. *)
Definition validateFields (values : gmap string FieldValue) (fs : list FormField) : Acc :=
  foldl (validateField values) (∅, true) fs.

(** [validateSection(sectionIndex)]: the returned [isValid] and the next
    state, or [None] when [formData.sections[sectionIndex]] is undefined
    and reading its [fields] throws. *)
Definition validateSection (formData : FormData) (sectionIndex : Z) (st : State)
  : option (bool * State) :=
  match JS.index (sections formData) sectionIndex with
  | None => None
  | Some section =>
      let '(newErrors, isValid) := validateFields (formValues st) (fields section) in
      Some (isValid,
            {| currentSection := currentSection st;
               formValues := formValues st;
               formErrors := newErrors ∪ formErrors st |})
  end.

Definition handleInputChange (fieldId : string) (value : FieldValue) (st : State) : State :=
  {| currentSection := currentSection st;
     formValues := <[fieldId := value]> (formValues st);
     formErrors :=
       if JS.truthyOptString (formErrors st !! fieldId)
       then delete fieldId (formErrors st)
       else formErrors st |}.

Definition setCurrentSection (n : Z) (st : State) : State :=
  {| currentSection := n; formValues := formValues st; formErrors := formErrors st |}.

Definition goToNextSection (formData : FormData) (st : State) : option State :=
  match validateSection formData (currentSection st) st with
  | None => None
  | Some (true, st') =>
      if (currentSection st <? Z.of_nat (length (sections formData)) - 1)%Z
      then Some (setCurrentSection (currentSection st + 1) st')
      else Some st'
  | Some (false, st') => Some st'
  end.

Definition goToPrevSection (st : State) : State :=
  if (0 <? currentSection st)%Z
  then setCurrentSection (currentSection st - 1) st
  else st.

(** [handleSubmit]: the log of the values is not part of the state. *)
Definition handleSubmit (formData : FormData) (st : State) : option State :=
  match validateSection formData (currentSection st) st with
  | None => None
  | Some (_, st') => Some st'
  end.

(** [const value = formValues[field.fieldId] || ""] in [renderField]. *)
Definition renderedValue (st : State) (field : FormField) : FieldValue :=
  match formValues st !! fieldId field with
  | Some v => if truthy (Some v) then v else VString ""
  | None => VString ""
  end.

(** [Array.isArray(value) ? value : []] *)
Definition checkboxValues (st : State) (field : FormField) : list string :=
  match renderedValue st field with
  | VList l => l
  | VString _ => []
  end.

(** The array handed to [handleInputChange] by the checkbox [onChange]:
    the checked branch is empty in the source. *)
Definition toggle (checkboxValues : list string) (optionValue : string) (checked : bool)
  : list string :=
  let updatedValues := checkboxValues in
  if checked then updatedValues
  else
    let index := JS.indexOf updatedValues optionValue in
    if (index =? -1)%Z then updatedValues else JS.splice1 updatedValues index.

Definition checkboxOnChange (field : FormField) (option : FormFieldOption) (checked : bool)
    (st : State) : State :=
  handleInputChange (fieldId field)
    (VList (toggle (checkboxValues st field) (optionValue option) checked)) st.

(** The user events of the component and the states they lead to. *)
Inductive Event :=
| Input (fieldId : string) (value : string)
| Tick (field : FormField) (option : FormFieldOption) (checked : bool)
| Next
| Previous
| Submit.

Definition step (formData : FormData) (st : State) (e : Event) : option State :=
  match e with
  | Input id v => Some (handleInputChange id (VString v) st)
  | Tick f o c => Some (checkboxOnChange f o c st)
  | Next => goToNextSection formData st
  | Previous => Some (goToPrevSection st)
  | Submit => handleSubmit formData st
  end.

Inductive reachable (formData : FormData) : State -> Prop :=
| reachable_initial : reachable formData initial
| reachable_step st e st' :
    reachable formData st -> step formData st e = Some st' -> reachable formData st'.

End DynamicForm.

(** ** The [App] component: the login flow *)

Module App.

Record User := { rollNumber : string; name : string }.

Record State := {
  user : option User;
  formData : option DynamicForm.FormData;
  isLoading : bool;
  error : option string;
  isLoggedIn : bool
}.

Definition initial : State :=
  {| user := None; formData := None; isLoading := false;
     error := None; isLoggedIn := false |}.

(** A thrown value: an [Error] instance with its [message], or anything
    else. *)
Inductive Thrown :=
| ErrorObject (message : string)
| OtherValue.

(** What the remote service can answer to [fetch] and [response.json()]:
    either call may reject; a parsed body carries [data.message], a
    string or undefined. *)
Record Body := { message : option string }.

Inductive JsonOutcome :=
| JsonRejects (e : Thrown)
| JsonResolves (data : Body).

Record Response := { ok : bool; json : JsonOutcome }.

Inductive FetchOutcome :=
| FetchRejects (e : Thrown)
| FetchResolves (response : Response).

(** State and exception monad of a handler. *)
Definition M (A : Type) : Type := State -> (Thrown + A) * State.

#[local] Instance M_ret : MRet M := fun A x st => (inr x, st).

#[local] Instance M_bind : MBind M := fun A B f m st =>
  match m st with
  | (inl e, st') => (inl e, st')
  | (inr x, st') => f x st'
  end.

#[local] Instance M_throw : MThrow Thrown M := fun A e st => (inl e, st).

(** [try { body } catch (err) { handler } finally { finalizer }] *)
Definition tryCatchFinally (body : M ()) (handler : Thrown -> M ()) (finalizer : M ()) : M () :=
  fun st =>
    let '(r, st1) :=
      match body st with
      | (inl e, st') => handler e st'
      | (inr x, st') => (inr x, st')
      end in
    match finalizer st1 with
    | (inl e, st2) => (inl e, st2)
    | (inr _, st2) => (r, st2)
    end.

Definition setUser (u : option User) : M () := fun st =>
  (inr (), {| user := u; formData := formData st; isLoading := isLoading st;
              error := error st; isLoggedIn := isLoggedIn st |}).

Definition setIsLoading (b : bool) : M () := fun st =>
  (inr (), {| user := user st; formData := formData st; isLoading := b;
              error := error st; isLoggedIn := isLoggedIn st |}).

Definition setError (e : option string) : M () := fun st =>
  (inr (), {| user := user st; formData := formData st; isLoading := isLoading st;
              error := e; isLoggedIn := isLoggedIn st |}).

Definition setIsLoggedIn (b : bool) : M () := fun st =>
  (inr (), {| user := user st; formData := formData st; isLoading := isLoading st;
              error := error st; isLoggedIn := b |}).

(** [await fetch(...)] and [await response.json()] against a given
    outcome. *)
Definition awaitFetch (o : FetchOutcome) : M Response :=
  match o with
  | FetchRejects e => mthrow e
  | FetchResolves r => mret r
  end.

Definition awaitJson (r : Response) : M Body :=
  match json r with
  | JsonRejects e => mthrow e
  | JsonResolves d => mret d
  end.

Definition userExistsMessage : string :=
  "User already exists. Fetch /get-form to get form json".

(** [data.message == "User already exists. ..."] *)
Definition isUserExists (data : Body) : bool :=
  match message data with
  | Some m => String.eqb m userExistsMessage
  | None => false
  end.

(** [err instanceof Error ? err.message : "An error occurred"] *)
Definition errorText (err : Thrown) : string :=
  match err with
  | ErrorObject m => m
  | OtherValue => "An error occurred"
  end.

Definition registerUser (userData : User) (o : FetchOutcome) : M () :=
  setIsLoading true;;
  setError None;;
  tryCatchFinally
    (response ← awaitFetch o;
     data ← awaitJson response;
     (if isUserExists data
      then setUser (Some userData);; setIsLoggedIn true
      else mret ());;
     (if negb (ok response)
      then mthrow (ErrorObject (JS.orElse (message data) "Failed to register user"))
      else mret ());;
     setUser (Some userData);;
     setIsLoggedIn true)
    (fun err => setError (Some (errorText err)))
    (setIsLoading false).

(** The state once the handler has finished. *)
Definition after (m : M ()) (st : State) : State := (m st).2.

(** A response with the given [ok] flag and body message. *)
Definition respond (isOk : bool) (msg : option string) : FetchOutcome :=
  FetchResolves {| ok := isOk; json := JsonResolves {| message := msg |} |}.

End App.

(** ** The vocabulary of the specification *)

Module Spec.
Import DynamicForm.

(** "a string that is empty/whitespace-only" *)
Fixpoint allWhiteSpace (s : string) : bool :=
  match s with
  | EmptyString => true
  | String c s' => JS.isWhiteSpace c && allWhiteSpace s'
  end.

(** "the value is absent, or a string that is empty/whitespace-only, or
    a list value with zero elements" *)
Definition isEmptyValue (value : option FieldValue) : Prop :=
  value = None
  \/ (exists s, value = Some (VString s) /\ allWhiteSpace s = true)
  \/ value = Some (VList []).

(** "removes the first occurrence of v", the order of the rest kept *)
Fixpoint removeFirst (v : string) (l : list string) : list string :=
  match l with
  | [] => []
  | x :: l' => if String.eqb x v then l' else x :: removeFirst v l'
  end.

(** "appends v to the list if absent", a no-op when present *)
Definition addIfAbsent (v : string) (l : list string) : list string :=
  if existsb (String.eqb v) l then l else l ++ [v].

(** The message each rule yields when it fires. *)
Definition requiredError (field : FormField) (value : option FieldValue) : option string :=
  if requiredRule field value then Some (requiredMessage field) else None.

Definition minLengthError (field : FormField) (value : option FieldValue) : option string :=
  match minLength field with
  | Some lo => if minLengthRule field value then Some (minLengthMessage field lo) else None
  | None => None
  end.

Definition maxLengthError (field : FormField) (value : option FieldValue) : option string :=
  match maxLength field with
  | Some hi => if maxLengthRule field value then Some (maxLengthMessage field hi) else None
  | None => None
  end.

(** "only the last computed message for that field is retained": of the
    rules required, min-length, max-length that fire, the latest. *)
Definition lastApplicable (field : FormField) (value : option FieldValue) : option string :=
  match maxLengthError field value with
  | Some msg => Some msg
  | None =>
      match minLengthError field value with
      | Some msg => Some msg
      | None => requiredError field value
      end
  end.

(** Some rule fires for the field. *)
Definition anyRule (field : FormField) (value : option FieldValue) : bool :=
  requiredRule field value || minLengthRule field value || maxLengthRule field value.

(** "Entry present iff that field currently fails validation": every
    recorded message is a non-empty text. *)
Definition messagesNonEmpty (errors : gmap string string) : Prop :=
  forall k msg, errors !! k = Some msg -> msg <> EmptyString.

(** "its message is surfaced": the message a thrown registration error
    carries, with the handler's default when the body has none. *)
Definition surfacedMessage (msg : option string) : string :=
  match msg with
  | Some (String c m) => String c m
  | _ => "Failed to register user"
  end.

End Spec.

(** ** Sample schemas and states used in the examples *)

Module Sample.
Import DynamicForm.

Definition nameField : FormField :=
  {| fieldId := "name"; type := text; label := "Name"; placeholder := None;
     required := true; dataTestId := "name"; validation := None; options := None;
     maxLength := Some 10%Z; minLength := Some 2%Z |}.

Definition nickField : FormField :=
  {| fieldId := "nick"; type := text; label := "Nickname"; placeholder := None;
     required := false; dataTestId := "nick"; validation := None; options := None;
     maxLength := None; minLength := Some 2%Z |}.

Definition hobbyOptions : list FormFieldOption :=
  [ {| optionValue := "a"; optionLabel := "A"; optionDataTestId := None |};
    {| optionValue := "b"; optionLabel := "B"; optionDataTestId := None |} ].

Definition optionA : FormFieldOption :=
  {| optionValue := "a"; optionLabel := "A"; optionDataTestId := None |}.

Definition hobbiesField : FormField :=
  {| fieldId := "hobbies"; type := checkbox; label := "Hobbies"; placeholder := None;
     required := false; dataTestId := "hobbies"; validation := None;
     options := Some hobbyOptions; maxLength := None; minLength := None |}.

Definition section (id : Z) (fs : list FormField) : FormSection :=
  {| sectionId := id; title := "Section"; description := ""; fields := fs |}.

Definition form (ss : list FormSection) : FormData :=
  {| formTitle := "Form"; formId := "form-1"; version := "1"; sections := ss |}.

(** One section holding the required text field of scenario 1. *)
Definition nameForm : FormData := form [section 1 [nameField]].

(** Two sections: an optional checkbox group, then the name field. *)
Definition hobbiesForm : FormData :=
  form [section 1 [hobbiesField]; section 2 [nameField]].

(** One section holding an optional text field with a minimum length. *)
Definition nickForm : FormData := form [section 1 [nickField]].

(** Two sections: the required name, then the optional nickname. *)
Definition twoStepForm : FormData :=
  form [section 1 [nameField]; section 2 [nickField]].

Definition alice : App.User := {| App.rollNumber := "42"; App.name := "Alice" |}.

End Sample.

(** ** What [DynamicForm] renders from its state *)

Module DynamicFormView.
Import DynamicForm.

(** [currentSection > 0 && <button>Previous</button>] in [renderSection]. *)
Definition showPrevious (st : State) : bool := (0 <? currentSection st)%Z.

(** [currentSection < formData.sections.length - 1 ? Next : Submit] *)
Definition showNext (formData : FormData) (st : State) : bool :=
  (currentSection st <? Z.of_nat (length (sections formData)) - 1)%Z.

Definition showSubmit (formData : FormData) (st : State) : bool :=
  negb (showNext formData st).

(** [checked={value === option.value}] of a radio input: the rendered
    value is compared strictly, an array equals no string. *)
Definition radioChecked (st : State) (field : FormField) (option : FormFieldOption) : bool :=
  match renderedValue st field with
  | VString s => String.eqb s (optionValue option)
  | VList _ => false
  end.

(** [const error = formErrors[field.fieldId]] and [{error && <p>...</p>}]:
    the text shown under the field, if any. *)
Definition shownError (st : State) (field : FormField) : option string :=
  match formErrors st !! fieldId field with
  | Some msg => if JS.truthyString msg then Some msg else None
  | None => None
  end.

(** [formData.sections.map((section, index) =>
      sectionTabStyle(index === currentSection))]: the tabs drawn active. *)
Definition activeTabs (formData : FormData) (st : State) : list bool :=
  imap (fun index _ => (Z.of_nat index =? currentSection st)%Z) (sections formData).

End DynamicFormView.

(** ** The [LoginForm] component *)

Module LoginForm.

Record State := {
  rollNumber : string;
  name : string;
  formErrors : gmap string string
}.

Definition initial : State :=
  {| rollNumber := ""; name := ""; formErrors := ∅ |}.

Definition setRollNumber (v : string) (st : State) : State :=
  {| rollNumber := v; name := name st; formErrors := formErrors st |}.

Definition setName (v : string) (st : State) : State :=
  {| rollNumber := rollNumber st; name := v; formErrors := formErrors st |}.

(** The local [errors] object of [validateForm]. *)
Definition validationErrors (st : State) : gmap string string :=
  let errors : gmap string string := ∅ in
  let errors :=
    if negb (JS.truthyString (JS.trim (rollNumber st)))
    then <["rollNumber" := "Roll Number is required"]> errors else errors in
  let errors :=
    if negb (JS.truthyString (JS.trim (name st)))
    then <["name" := "Name is required"]> errors else errors in
  errors.

(** [validateForm]: [Object.keys(errors).length === 0] and the state with
    the errors stored. *)
Definition validateForm (st : State) : bool * State :=
  let errors := validationErrors st in
  ((size errors =? 0)%nat,
   {| rollNumber := rollNumber st; name := name st; formErrors := errors |}).

(** [handleSubmit]: the next state and the argument of [onSubmit], when it
    is called. *)
Definition handleSubmit (st : State) : State * option App.User :=
  let '(valid, st') := validateForm st in
  (st', if valid
        then Some {| App.rollNumber := rollNumber st; App.name := name st |}
        else None).

(** A click on the login button, which is [disabled={isLoading}]. *)
Definition clickLogin (isLoading : bool) (st : State) : State * option App.User :=
  if isLoading then (st, None) else handleSubmit st.

End LoginForm.

(** ** The [App] component: fetching and showing the form *)

Module AppForm.

#[local] Existing Instances App.M_ret App.M_bind App.M_throw.

(** The parsed body of the form request: [data.message] and [data.form],
    either of which may be undefined. *)
Record Body := {
  message : option string;
  form : option DynamicForm.FormData
}.

Inductive JsonOutcome :=
| JsonRejects (e : App.Thrown)
| JsonResolves (data : Body).

Record Response := { ok : bool; json : JsonOutcome }.

Inductive FetchOutcome :=
| FetchRejects (e : App.Thrown)
| FetchResolves (response : Response).

(** The remote service: what the request for a roll number comes to. *)
Definition Server : Type := string -> FetchOutcome.

Definition setFormData (f : option DynamicForm.FormData) : App.M () := fun st =>
  (inr (), {| App.user := App.user st; App.formData := f;
              App.isLoading := App.isLoading st; App.error := App.error st;
              App.isLoggedIn := App.isLoggedIn st |}).

Definition awaitFetch (o : FetchOutcome) : App.M Response :=
  match o with
  | FetchRejects e => mthrow e
  | FetchResolves r => mret r
  end.

Definition awaitJson (r : Response) : App.M Body :=
  match json r with
  | JsonRejects e => mthrow e
  | JsonResolves d => mret d
  end.

(** [err instanceof Error ? err.message :
      "An error occurred while fetching form data"] *)
Definition errorText (err : App.Thrown) : string :=
  match err with
  | App.ErrorObject m => m
  | App.OtherValue => "An error occurred while fetching form data"
  end.

Definition fetchFormData (server : Server) (rollNumber : string) : App.M () :=
  App.setIsLoading true;;
  App.setError None;;
  App.tryCatchFinally
    (response ← awaitFetch (server rollNumber);
     data ← awaitJson response;
     (if negb (ok response)
      then mthrow (App.ErrorObject (JS.orElse (message data) "Failed to fetch form data"))
      else mret ());;
     setFormData (form data))
    (fun err => App.setError (Some (errorText err)))
    (App.setIsLoading false).

(** The body of the effect on [isLoggedIn] and [user]. *)
Definition effect (server : Server) : App.M () := fun st =>
  match App.isLoggedIn st, App.user st with
  | true, Some u => fetchFormData server (App.rollNumber u) st
  | _, _ => (inr (), st)
  end.

(** What [App] returns: the login form with its props, or the main view
    with the loading notice, the error box and the dynamic form. *)
Inductive Screen :=
| LoginScreen (isLoading : bool) (error : option string)
| MainScreen (loadingNotice : bool) (errorBox : option string)
    (dynamicForm : option DynamicForm.FormData).

Definition render (st : App.State) : Screen :=
  if negb (App.isLoggedIn st)
  then LoginScreen (App.isLoading st) (App.error st)
  else MainScreen (App.isLoading st)
         (match App.error st with
          | Some e => if JS.truthyString e then Some e else None
          | None => None
          end)
         (App.formData st).

(** A response of the form service with the given [ok] flag and body. *)
Definition respond (isOk : bool) (msg : option string)
    (f : option DynamicForm.FormData) : FetchOutcome :=
  FetchResolves {| ok := isOk; json := JsonResolves {| message := msg; form := f |} |}.

End AppForm.

(** ** Properties of the schema used by the invariants *)

Module Schema.
Import DynamicForm.

(** The text is one of the three messages of the field. *)
Definition messageOf (field : FormField) (msg : string) : Prop :=
  msg = requiredMessage field
  \/ (exists lo, minLength field = Some lo /\ msg = minLengthMessage field lo)
  \/ (exists hi, maxLength field = Some hi /\ msg = maxLengthMessage field hi).

(** The key is a field of some section of the schema and the text one of
    that field's messages. *)
Definition ownsMessage (formData : FormData) (k msg : string) : Prop :=
  exists section field,
    section ∈ sections formData /\ field ∈ fields section
    /\ fieldId field = k /\ messageOf field msg.

(** No field of the list has an id that names a member of
    [Object.prototype]. *)
Definition plainIds (fs : list FormField) : Prop :=
  forall field, field ∈ fs -> JSObject.plainKey (fieldId field).

(** Every stored list is empty. *)
Definition listsEmpty (values : gmap string FieldValue) : Prop :=
  forall k l, values !! k = Some (VList l) -> l = [].

End Schema.

(** ** Facts about the JavaScript primitives *)

Section JSFacts.

Lemma trimStart_nil s : JS.trimStart s = EmptyString <-> Spec.allWhiteSpace s = true.
Proof.
  induction s as [|c s IH]; simpl; [tauto|].
  destruct (JS.isWhiteSpace c); simpl; [exact IH|].
  split; discriminate.
Qed.

Lemma trimStart_head s c t :
  JS.trimStart s = String c t -> JS.isWhiteSpace c = false.
Proof.
  induction s as [|d s IH]; simpl; [discriminate|].
  destruct (JS.isWhiteSpace d) eqn:Hd; [exact IH|].
  intros [= -> _]. exact Hd.
Qed.

Lemma trimEnd_head c t :
  JS.isWhiteSpace c = false -> JS.trimEnd (String c t) <> EmptyString.
Proof.
  intros Hc. simpl. rewrite Hc. destruct (JS.trimEnd t); discriminate.
Qed.

(** [!value.trim()] holds exactly for the strings made of white space. *)
Lemma trim_nil s : JS.trim s = EmptyString <-> Spec.allWhiteSpace s = true.
Proof.
  unfold JS.trim. rewrite <- trimStart_nil.
  destruct (JS.trimStart s) as [|c t] eqn:Hs; [tauto|].
  split; [|discriminate].
  intros H. exfalso. eapply trimEnd_head; [|exact H].
  eapply trimStart_head, Hs.
Qed.

Lemma truthyString_false s : JS.truthyString s = false <-> s = EmptyString.
Proof. destruct s; simpl; split; congruence. Qed.

Lemma truthyString_true s : JS.truthyString s = true <-> s <> EmptyString.
Proof. destruct s; simpl; split; congruence. Qed.

Lemma append_nonempty a b : b <> EmptyString -> a +:+ b <> EmptyString.
Proof. destruct a; simpl; [tauto|discriminate]. Qed.

Lemma append_cancel a b c : a +:+ b = a +:+ c -> b = c.
Proof.
  induction a as [|x a IH]; simpl; [tauto|].
  intros [= H]. auto.
Qed.

Lemma indexOfFrom_bounds x arr i :
  (0 <= i)%Z ->
  JS.indexOfFrom x arr i = (-1)%Z \/ (i <= JS.indexOfFrom x arr i)%Z.
Proof.
  revert i. induction arr as [|y arr IH]; intros i Hi; simpl; [tauto|].
  destruct (String.eqb y x); [right; lia|].
  destruct (IH (i + 1)%Z) as [->|H]; [lia|tauto|right; lia].
Qed.

(** [indexOf] then [splice] takes out the first occurrence. *)
Lemma splice_indexOfFrom x arr i :
  (0 <= i)%Z ->
  (if (JS.indexOfFrom x arr i =? -1)%Z then arr
   else delete (Z.to_nat (JS.indexOfFrom x arr i - i)) arr)
  = Spec.removeFirst x arr.
Proof.
  revert i. induction arr as [|y arr IH]; intros i Hi; simpl; [reflexivity|].
  destruct (String.eqb y x) eqn:Hy.
  - destruct (Z.eqb_spec i (-1)); [lia|].
    replace (i - i)%Z with 0%Z by lia. reflexivity.
  - specialize (IH (i + 1)%Z ltac:(lia)).
    destruct (indexOfFrom_bounds x arr (i + 1)%Z ltac:(lia)) as [E|E].
    + rewrite E in *. simpl in *. congruence.
    + destruct (Z.eqb_spec (JS.indexOfFrom x arr (i + 1)) (-1)); [lia|].
      replace (Z.to_nat (JS.indexOfFrom x arr (i + 1) - i))
        with (S (Z.to_nat (JS.indexOfFrom x arr (i + 1) - (i + 1)))) by lia.
      simpl. congruence.
Qed.

End JSFacts.

(** ** Facts about the validator *)

Section ValidatorFacts.
Import DynamicForm.

Implicit Types (field : FormField) (value : option FieldValue)
  (values : gmap string FieldValue) (acc : Acc) (fs : list FormField).

(** The first [if] in logical form: the required flag guards the absent
    and blank cases only; an empty array passes the test by itself. *)
Lemma requiredRule_true field value :
  requiredRule field value = true <->
  (required field = true /\ Spec.isEmptyValue value) \/ value = Some (VList []).
Proof.
  unfold requiredRule, Spec.isEmptyValue.
  destruct value as [[s|l]|]; simpl.
  - rewrite orb_false_r, andb_true_iff, orb_true_iff, !negb_true_iff,
      !truthyString_false, trim_nil.
    split.
    + intros [Hr Hs]. left. split; [exact Hr|]. right. left. exists s.
      split; [reflexivity|]. destruct Hs as [->|Hs]; [reflexivity|exact Hs].
    + intros [[Hr [H|[(s' & [= <-] & Hs)|H]]]|H]; try discriminate. auto.
  - rewrite andb_false_r. simpl. destruct l as [|x l]; simpl.
    + split; auto.
    + split; [discriminate|].
      intros [[_ [H|[(s' & H & _)|H]]]|H]; discriminate.
  - rewrite orb_false_r, andb_true_r. split.
    + intros Hr. left. split; [exact Hr|]. left. reflexivity.
    + intros [[Hr _]|H]; [exact Hr|discriminate].
Qed.

Lemma requiredStep_errors field value acc :
  (requiredStep field value acc).1
  = match Spec.requiredError field value with
    | Some msg => <[fieldId field := msg]> acc.1
    | None => acc.1
    end.
Proof.
  unfold requiredStep, Spec.requiredError. destruct (requiredRule field value); reflexivity.
Qed.

Lemma minLengthStep_errors field value acc :
  (minLengthStep field value acc).1
  = match Spec.minLengthError field value with
    | Some msg => <[fieldId field := msg]> acc.1
    | None => acc.1
    end.
Proof.
  unfold minLengthStep, Spec.minLengthError.
  destruct (minLength field); [|reflexivity].
  destruct (minLengthRule field value); reflexivity.
Qed.

Lemma maxLengthStep_errors field value acc :
  (maxLengthStep field value acc).1
  = match Spec.maxLengthError field value with
    | Some msg => <[fieldId field := msg]> acc.1
    | None => acc.1
    end.
Proof.
  unfold maxLengthStep, Spec.maxLengthError.
  destruct (maxLength field); [|reflexivity].
  destruct (maxLengthRule field value); reflexivity.
Qed.

(** One pass of the callback leaves in [newErrors] the message of the
    last rule that fired, if any. *)
Lemma validateField_errors values acc field :
  (validateField values acc field).1
  = match Spec.lastApplicable field (values !! fieldId field) with
    | Some msg => <[fieldId field := msg]> acc.1
    | None => acc.1
    end.
Proof.
  unfold validateField, Spec.lastApplicable.
  rewrite maxLengthStep_errors, minLengthStep_errors, requiredStep_errors.
  destruct (Spec.maxLengthError _ _), (Spec.minLengthError _ _),
    (Spec.requiredError _ _); rewrite ?insert_insert_eq; reflexivity.
Qed.

Lemma minLengthRule_undefined field value :
  minLength field = None -> minLengthRule field value = false.
Proof. unfold minLengthRule. intros ->. reflexivity. Qed.

Lemma maxLengthRule_undefined field value :
  maxLength field = None -> maxLengthRule field value = false.
Proof. unfold maxLengthRule. intros ->. reflexivity. Qed.

Lemma validateField_valid values acc field :
  (validateField values acc field).2
  = acc.2 && negb (Spec.anyRule field (values !! fieldId field)).
Proof.
  unfold validateField, Spec.anyRule, maxLengthStep, minLengthStep, requiredStep.
  set (v := values !! fieldId field).
  pose proof (minLengthRule_undefined field v) as Hmin.
  pose proof (maxLengthRule_undefined field v) as Hmax.
  destruct (minLength field), (maxLength field);
    rewrite ?Hmin, ?Hmax by reflexivity;
    destruct (requiredRule field v), (minLengthRule field v), (maxLengthRule field v);
    simpl; rewrite ?andb_true_r, ?andb_false_r; reflexivity.
Qed.

Lemma lastApplicable_anyRule field value :
  is_Some (Spec.lastApplicable field value) <-> Spec.anyRule field value = true.
Proof.
  unfold Spec.lastApplicable, Spec.anyRule, Spec.maxLengthError, Spec.minLengthError,
    Spec.requiredError.
  pose proof (minLengthRule_undefined field value) as Hmin.
  pose proof (maxLengthRule_undefined field value) as Hmax.
  destruct (minLength field), (maxLength field);
    rewrite ?Hmin, ?Hmax by reflexivity;
    destruct (requiredRule field value), (minLengthRule field value),
      (maxLengthRule field value); simpl; split; intros H;
    first [reflexivity | by eauto | by apply is_Some_None in H | discriminate].
Qed.

(** [isValid] is false exactly when [newErrors] has received an entry. *)
Lemma validateField_valid_errors values acc field :
  (acc.2 = true <-> acc.1 = ∅) ->
  ((validateField values acc field).2 = true <-> (validateField values acc field).1 = ∅).
Proof.
  intros Hacc. rewrite validateField_valid, validateField_errors, andb_true_iff,
    negb_true_iff.
  pose proof (lastApplicable_anyRule field (values !! fieldId field)) as Hany.
  destruct (Spec.lastApplicable field (values !! fieldId field)) as [msg|].
  - split.
    + intros [_ H]. destruct Hany as [Hany _]. rewrite Hany in H; [discriminate|eauto].
    + intros H. exfalso. exact (insert_non_empty _ _ _ H).
  - rewrite Hacc. split; [tauto|]. intros H. split; [exact H|].
    destruct (Spec.anyRule _ _); [|reflexivity].
    destruct Hany as [_ Hany]. by apply is_Some_None in Hany.
Qed.

Lemma foldl_validateField_valid_errors values fs acc :
  (acc.2 = true <-> acc.1 = ∅) ->
  ((foldl (validateField values) acc fs).2 = true
   <-> (foldl (validateField values) acc fs).1 = ∅).
Proof.
  revert acc. induction fs as [|f fs IH]; intros acc Hacc; simpl; [exact Hacc|].
  apply IH, validateField_valid_errors, Hacc.
Qed.

Lemma validateFields_valid_errors values fs :
  (validateFields values fs).2 = true <-> (validateFields values fs).1 = ∅.
Proof. apply foldl_validateField_valid_errors. simpl. tauto. Qed.

(** A rule that fires on some field makes the whole pass invalid. *)
Lemma foldl_validateField_invalid values fs acc :
  acc.2 = false -> (foldl (validateField values) acc fs).2 = false.
Proof.
  revert acc. induction fs as [|f fs IH]; intros acc Hacc; simpl; [exact Hacc|].
  apply IH. rewrite validateField_valid, Hacc. reflexivity.
Qed.

Lemma validateFields_invalid values fs field :
  field ∈ fs ->
  Spec.anyRule field (values !! fieldId field) = true ->
  (validateFields values fs).2 = false.
Proof.
  unfold validateFields. generalize ((∅, true) : Acc).
  induction fs as [|f fs IH]; intros acc Hin Hany; [by apply elem_of_nil in Hin|].
  simpl. apply elem_of_cons in Hin as [<-|Hin].
  - apply foldl_validateField_invalid. rewrite validateField_valid, Hany.
    apply andb_false_r.
  - by apply IH.
Qed.

(** Keys that are no field of the list are never written. *)
Lemma foldl_validateField_other values fs acc k :
  k ∉ fieldId <$> fs ->
  (foldl (validateField values) acc fs).1 !! k = acc.1 !! k.
Proof.
  revert acc. induction fs as [|f fs IH]; intros acc Hk; simpl; [reflexivity|].
  rewrite fmap_cons in Hk. apply not_elem_of_cons in Hk as [Hkf Hk].
  rewrite IH by exact Hk. rewrite validateField_errors.
  destruct (Spec.lastApplicable _ _); [|reflexivity].
  by rewrite lookup_insert_ne.
Qed.

(** With pairwise distinct field ids, the entry of a field is the last
    message of its own pass. *)
Lemma foldl_validateField_own values fs acc field :
  NoDup (fieldId <$> fs) ->
  field ∈ fs ->
  (foldl (validateField values) acc fs).1 !! fieldId field
  = match Spec.lastApplicable field (values !! fieldId field) with
    | Some msg => Some msg
    | None => acc.1 !! fieldId field
    end.
Proof.
  revert acc. induction fs as [|f fs IH]; intros acc Hnd Hin;
    [by apply elem_of_nil in Hin|].
  rewrite fmap_cons in Hnd. apply NoDup_cons in Hnd as [Hf Hnd].
  simpl. apply elem_of_cons in Hin as [->|Hin].
  - rewrite foldl_validateField_other by exact Hf.
    rewrite validateField_errors.
    destruct (Spec.lastApplicable _ _); [by rewrite lookup_insert_eq|reflexivity].
  - rewrite IH by assumption.
    destruct (Spec.lastApplicable field _); [reflexivity|].
    rewrite validateField_errors.
    assert (fieldId f <> fieldId field) as Hne.
    { intros E. apply Hf. rewrite E. by apply list_elem_of_fmap_2. }
    destruct (Spec.lastApplicable f _); [by rewrite lookup_insert_ne|reflexivity].
Qed.

Lemma validateFields_own values fs field :
  NoDup (fieldId <$> fs) ->
  field ∈ fs ->
  (validateFields values fs).1 !! fieldId field
  = Spec.lastApplicable field (values !! fieldId field).
Proof.
  intros Hnd Hin. unfold validateFields.
  rewrite foldl_validateField_own by assumption.
  destruct (Spec.lastApplicable _ _); [reflexivity|apply lookup_empty].
Qed.

Lemma validateFields_other values fs k :
  k ∉ fieldId <$> fs -> (validateFields values fs).1 !! k = None.
Proof.
  intros Hk. unfold validateFields. rewrite foldl_validateField_other by exact Hk.
  apply lookup_empty.
Qed.

End ValidatorFacts.

(** ** Facts about the messages and the reachable states *)

Section MessageFacts.
Import DynamicForm.

Implicit Types (field : FormField) (value : option FieldValue)
  (values : gmap string FieldValue) (acc : Acc) (fs : list FormField).

Lemma requiredMessage_nonempty field : requiredMessage field <> EmptyString.
Proof. apply append_nonempty. discriminate. Qed.

Lemma minLengthMessage_nonempty field m : minLengthMessage field m <> EmptyString.
Proof. apply append_nonempty. discriminate. Qed.

Lemma maxLengthMessage_nonempty field m : maxLengthMessage field m <> EmptyString.
Proof. apply append_nonempty. discriminate. Qed.

Lemma required_min_distinct field m : requiredMessage field <> minLengthMessage field m.
Proof. intros H. apply append_cancel in H. discriminate. Qed.

Lemma required_max_distinct field m : requiredMessage field <> maxLengthMessage field m.
Proof. intros H. apply append_cancel in H. discriminate. Qed.

Lemma min_max_distinct field lo hi : minLengthMessage field lo <> maxLengthMessage field hi.
Proof. intros H. apply append_cancel in H. discriminate. Qed.

Lemma lastApplicable_nonempty field value msg :
  Spec.lastApplicable field value = Some msg -> msg <> EmptyString.
Proof.
  unfold Spec.lastApplicable, Spec.maxLengthError, Spec.minLengthError, Spec.requiredError.
  destruct (maxLength field), (minLength field), (maxLengthRule field value),
    (minLengthRule field value), (requiredRule field value); intros [= <-];
    first [ apply requiredMessage_nonempty
          | apply minLengthMessage_nonempty
          | apply maxLengthMessage_nonempty ].
Qed.

Lemma foldl_validateField_nonempty values fs acc :
  Spec.messagesNonEmpty acc.1 ->
  Spec.messagesNonEmpty (foldl (validateField values) acc fs).1.
Proof.
  revert acc. induction fs as [|f fs IH]; intros acc Hacc; simpl; [exact Hacc|].
  apply IH. rewrite validateField_errors.
  destruct (Spec.lastApplicable _ _) as [msg|] eqn:E; [|exact Hacc].
  intros k m. rewrite lookup_insert. case_decide.
  - intros [= <-]. eapply lastApplicable_nonempty, E.
  - apply Hacc.
Qed.

Lemma validateFields_nonempty values fs :
  Spec.messagesNonEmpty (validateFields values fs).1.
Proof. apply foldl_validateField_nonempty. intros k m. simpl. by rewrite lookup_empty. Qed.

Lemma validateSection_inv formData i st isValid st' :
  validateSection formData i st = Some (isValid, st') ->
  exists section,
    JS.index (sections formData) i = Some section
    /\ isValid = (validateFields (formValues st) (fields section)).2
    /\ currentSection st' = currentSection st
    /\ formValues st' = formValues st
    /\ formErrors st' = (validateFields (formValues st) (fields section)).1 ∪ formErrors st.
Proof.
  unfold validateSection. destruct (JS.index _ _) as [section|]; [|discriminate].
  destruct (validateFields _ _) as [newErrors valid] eqn:E.
  intros [= <- <-]. exists section. rewrite E. simpl. by split_and!.
Qed.

Lemma validateSection_nonempty formData i st isValid st' :
  validateSection formData i st = Some (isValid, st') ->
  Spec.messagesNonEmpty (formErrors st) -> Spec.messagesNonEmpty (formErrors st').
Proof.
  intros H Hst. apply validateSection_inv in H as (section & _ & _ & _ & _ & ->).
  intros k m [Hk|[_ Hk]]%lookup_union_Some_raw.
  - eapply validateFields_nonempty, Hk.
  - eapply Hst, Hk.
Qed.

Lemma handleInputChange_nonempty id v st :
  Spec.messagesNonEmpty (formErrors st) ->
  Spec.messagesNonEmpty (formErrors (handleInputChange id v st)).
Proof.
  intros Hst k m. simpl. destruct (JS.truthyOptString _); [|apply Hst].
  intros [_ Hk]%lookup_delete_Some. eapply Hst, Hk.
Qed.

(** Every message the component ever holds is non-empty, hence truthy. *)
Lemma reachable_nonempty formData st :
  reachable formData st -> Spec.messagesNonEmpty (formErrors st).
Proof.
  induction 1 as [|st e st' _ IH Hstep].
  - intros k m. simpl. by rewrite lookup_empty.
  - destruct e; simpl in Hstep.
    + injection Hstep as <-. by apply handleInputChange_nonempty.
    + injection Hstep as <-. by apply handleInputChange_nonempty.
    + unfold goToNextSection in Hstep.
      destruct (validateSection _ _ _) as [[[] st1]|] eqn:E; [| |discriminate].
      * pose proof (validateSection_nonempty _ _ _ _ _ E IH) as H1.
        destruct (_ <? _)%Z; injection Hstep as <-; exact H1.
      * injection Hstep as <-. eapply validateSection_nonempty; eauto.
    + injection Hstep as <-. unfold goToPrevSection.
      destruct (_ <? _)%Z; exact IH.
    + unfold handleSubmit in Hstep.
      destruct (validateSection _ _ _) as [[b st1]|] eqn:E; [|discriminate].
      injection Hstep as <-. eapply validateSection_nonempty; eauto.
Qed.

End MessageFacts.

(** ** The required rule *)

Section RequiredRule.
Import DynamicForm.

(** On a required field the first [if] fires exactly on the empty
    values: absent, blank string, empty list. *)
Lemma requiredRule_required field value :
  required field = true ->
  (requiredRule field value = true <-> Spec.isEmptyValue value).
Proof.
  intros Hr. rewrite requiredRule_true. split.
  - intros [[_ H]|H]; [exact H|]. right. right. exact H.
  - intros H. left. split; assumption.
Qed.

(** On an optional field it still fires, on the empty list and on
    nothing else: the test for an empty array stands outside the
    conjunction with [field.required]. *)
Lemma requiredRule_optional field value :
  required field = false ->
  (requiredRule field value = true <-> value = Some (VList [])).
Proof.
  intros Hr. rewrite requiredRule_true, Hr. split.
  - intros [[[=] _]|H]. exact H.
  - intros H. right. exact H.
Qed.

(** C1, at the failing input.  The optional checkbox group "hobbies" of
    the sample form holds the empty list once one of its boxes has been
    clicked; [validateSection] then records "Hobbies is required" for
    it and reports the section invalid, although the field's required
    flag is false. *)
Theorem optional_empty_list_is_reported_required :
  let st := checkboxOnChange Sample.hobbiesField Sample.optionA true initial in
  required Sample.hobbiesField = false
  /\ step Sample.hobbiesForm initial (Tick Sample.hobbiesField Sample.optionA true)
     = Some st
  /\ formValues st !! "hobbies" = Some (VList [])
  /\ requiredRule Sample.hobbiesField (formValues st !! "hobbies") = true
  /\ validateSection Sample.hobbiesForm 0 st
     = Some (false,
             {| currentSection := 0;
                formValues := formValues st;
                formErrors := {["hobbies" := "Hobbies is required"]} |})
  /\ (currentSection <$> goToNextSection Sample.hobbiesForm st) = Some 0%Z.
Proof. vm_compute. by split_and!. Qed.

End RequiredRule.

(** ** The checkbox group *)

Section Checkbox.
Import DynamicForm.

(** Checking a box hands the stored list on unchanged. *)
Lemma toggle_checked l v : toggle l v true = l.
Proof. reflexivity. Qed.

(** Unchecking a box takes out the first occurrence of its value. *)
Lemma toggle_unchecked l v : toggle l v false = Spec.removeFirst v l.
Proof.
  unfold toggle, JS.indexOf, JS.splice1.
  rewrite <- (splice_indexOfFrom v l 0) by lia.
  destruct (_ =? _)%Z; [reflexivity|]. by rewrite Z.sub_0_r.
Qed.

Lemma removeFirst_absent v l : v ∉ l -> Spec.removeFirst v l = l.
Proof.
  induction l as [|x l IH]; simpl; [reflexivity|].
  intros [Hx Hl]%not_elem_of_cons.
  destruct (String.eqb_spec x v); [congruence|]. by rewrite IH.
Qed.

(** The elements before and after the removed one keep their order. *)
Lemma removeFirst_split v l1 l2 :
  v ∉ l1 -> Spec.removeFirst v (l1 ++ v :: l2) = l1 ++ l2.
Proof.
  induction l1 as [|x l1 IH]; simpl.
  - intros _. by rewrite String.eqb_refl.
  - intros [Hx Hl]%not_elem_of_cons.
    destruct (String.eqb_spec x v); [congruence|]. by rewrite IH.
Qed.

Lemma toggle_unchecked_split v l1 l2 :
  v ∉ l1 -> toggle (l1 ++ v :: l2) v false = l1 ++ l2.
Proof. intros H. rewrite toggle_unchecked. by apply removeFirst_split. Qed.

Lemma toggle_unchecked_absent v l : v ∉ l -> toggle l v false = l.
Proof. intros H. rewrite toggle_unchecked. by apply removeFirst_absent. Qed.

(** A value that is already stored stays stored once when its box is
    checked again. *)
Lemma toggle_checked_present v l : v ∈ l -> toggle l v true = Spec.addIfAbsent v l.
Proof.
  intros Hin. unfold Spec.addIfAbsent.
  assert (existsb (String.eqb v) l = true) as ->; [|reflexivity].
  apply existsb_exists. exists v. split; [by apply list_elem_of_In|apply String.eqb_refl].
Qed.

(** The handler stores the toggled list under the field and drops the
    field's error. *)
Lemma checkboxOnChange_value field option checked st :
  formValues (checkboxOnChange field option checked st) !! fieldId field
  = Some (VList (toggle (checkboxValues st field) (optionValue option) checked)).
Proof. unfold checkboxOnChange. simpl. apply lookup_insert_eq. Qed.

(** C2, at the failing input.  Scenario 3 of the specification: on the
    empty list, checking option "a" must give ["a"]; the handler stores
    the empty list again, so the box never sticks. *)
Theorem checking_a_box_does_not_append :
  let st := checkboxOnChange Sample.hobbiesField Sample.optionA true initial in
  checkboxValues initial Sample.hobbiesField = []
  /\ Spec.addIfAbsent "a" [] = ["a"]
  /\ toggle [] "a" true = []
  /\ formValues st !! "hobbies" = Some (VList [])
  /\ toggle ["b"] "a" true = ["b"].
Proof. vm_compute. by split_and!. Qed.

End Checkbox.

(** ** The length rules and the precedence of the messages *)

Section LengthRules.
Import DynamicForm.

Implicit Types (field : FormField) (values : gmap string FieldValue)
  (fs : list FormField).

(** The second [if] on a string: the truthiness test [value && ...]
    keeps the empty string out. *)
Lemma minLengthRule_string field s lo :
  minLength field = Some lo ->
  (minLengthRule field (Some (VString s)) = true
   <-> s <> EmptyString /\ (Z.of_nat (String.length s) < lo)%Z).
Proof.
  intros Hlo. unfold minLengthRule. rewrite Hlo. simpl.
  rewrite andb_true_iff, truthyString_true, Z.ltb_lt. reflexivity.
Qed.

Lemma maxLengthRule_string field s hi :
  maxLength field = Some hi ->
  (maxLengthRule field (Some (VString s)) = true
   <-> s <> EmptyString /\ (hi < Z.of_nat (String.length s))%Z).
Proof.
  intros Hhi. unfold maxLengthRule. rewrite Hhi. simpl.
  rewrite andb_true_iff, truthyString_true, Z.ltb_lt. reflexivity.
Qed.

(** The length rules never fire on an absent value or on a list. *)
Lemma lengthRules_not_string field value :
  (forall s, value <> Some (VString s)) ->
  minLengthRule field value = false /\ maxLengthRule field value = false.
Proof.
  intros H. unfold minLengthRule, maxLengthRule.
  destruct value as [[s|l]|]; [by destruct (H s)| |];
    destruct (minLength field), (maxLength field); auto.
Qed.

Lemma lastApplicable_min field value lo :
  minLength field = Some lo ->
  (Spec.lastApplicable field value = Some (minLengthMessage field lo)
   <-> minLengthRule field value = true /\ maxLengthRule field value = false).
Proof.
  intros Hlo.
  unfold Spec.lastApplicable, Spec.maxLengthError, Spec.minLengthError, Spec.requiredError.
  rewrite Hlo.
  pose proof (maxLengthRule_undefined field value) as Hmax.
  destruct (maxLength field) as [hi|]; rewrite ?Hmax by reflexivity;
    destruct (maxLengthRule field value), (minLengthRule field value),
      (requiredRule field value);
    split; try (intros [= H]); try (intros [[=] [=]]); try done;
    try (by symmetry in H; apply min_max_distinct in H);
    try (by apply required_min_distinct in H).
Qed.




End LengthRules.

(** ** [validateSection]: result, effect and precedence *)

Section ValidateSection.
Import DynamicForm.

Implicit Types (formData : FormData) (st : State) (field : FormField).

(** What a call of [validateSection] on an existing section returns
    and writes. *)
Lemma validateSection_runs formData i st section :
  JS.index (sections formData) i = Some section ->
  exists isValid st',
    validateSection formData i st = Some (isValid, st')
    /\ (isValid = true <-> (validateFields (formValues st) (fields section)).1 = ∅)
    /\ formErrors st' = (validateFields (formValues st) (fields section)).1 ∪ formErrors st
    /\ (forall k, k ∉ fieldId <$> fields section -> formErrors st' !! k = formErrors st !! k)
    /\ formValues st' = formValues st
    /\ currentSection st' = currentSection st.
Proof.
  intros Hsec. unfold validateSection. rewrite Hsec.
  destruct (validateFields _ _) as [newErrors valid] eqn:E.
  exists valid, {| currentSection := currentSection st; formValues := formValues st;
                   formErrors := newErrors ∪ formErrors st |}.
  pose proof (validateFields_valid_errors (formValues st) (fields section)) as Hvalid.
  pose proof (validateFields_other (formValues st) (fields section)) as Hother.
  rewrite E in Hvalid, Hother. simpl in *. split_and!; try done.
  intros k Hk. rewrite lookup_union_r; [reflexivity|]. by apply Hother.
Qed.




(** C5.  In a section whose field ids are pairwise distinct, the loop
    of [validateSection] records for each field whose id names no member
    of [Object.prototype] at most one message,
    that of the last rule among required, min-length, max-length that
    fires, and [validateSection] puts exactly that message into the
    error mapping; so a non-empty blank string shorter than minLength
    on a required field is reported with the min-length message, which
    has overwritten the required message. *)
Theorem last_applicable_rule_wins formData i st section field :
  JS.index (sections formData) i = Some section ->
  NoDup (fieldId <$> fields section) ->
  field ∈ fields section ->
  JSObject.plainKey (fieldId field) ->
  let value := formValues st !! fieldId field in
  let newErrors := (validateFields (formValues st) (fields section)).1 in
  newErrors !! fieldId field = Spec.lastApplicable field value
  /\ (exists isValid st',
        validateSection formData i st = Some (isValid, st')
        /\ forall msg, Spec.lastApplicable field value = Some msg ->
                       formErrors st' !! fieldId field = Some msg)
  /\ (forall hi, maxLengthRule field value = true -> maxLength field = Some hi ->
                 newErrors !! fieldId field = Some (maxLengthMessage field hi))
  /\ (forall lo, maxLengthRule field value = false -> minLengthRule field value = true ->
                 minLength field = Some lo ->
                 newErrors !! fieldId field = Some (minLengthMessage field lo))
  /\ (maxLengthRule field value = false -> minLengthRule field value = false ->
      requiredRule field value = true ->
      newErrors !! fieldId field = Some (requiredMessage field))
  /\ (maxLengthRule field value = false -> minLengthRule field value = false ->
      requiredRule field value = false ->
      newErrors !! fieldId field = None)
  /\ (forall s lo,
        required field = true -> minLength field = Some lo ->
        value = Some (VString s) ->
        s <> EmptyString -> Spec.allWhiteSpace s = true ->
        (Z.of_nat (String.length s) < lo)%Z ->
        maxLengthRule field value = false ->
        requiredRule field value = true
        /\ newErrors !! fieldId field = Some (minLengthMessage field lo)
        /\ minLengthMessage field lo <> requiredMessage field).
Proof.
  intros Hsec Hnd Hin Hplain value newErrors.
  assert (newErrors !! fieldId field = Spec.lastApplicable field value) as Hown
    by (by apply validateFields_own).
  split_and!.
  - exact Hown.
  - destruct (validateSection_runs formData i st section Hsec)
      as (isValid & st' & Hrun & _ & Herr & _).
    exists isValid, st'. split; [exact Hrun|].
    intros msg Hmsg. rewrite Herr. apply lookup_union_Some_l.
    fold newErrors. by rewrite Hown.
  - intros hi Hmax Hhi. rewrite Hown.
    unfold Spec.lastApplicable, Spec.maxLengthError. by rewrite Hhi, Hmax.
  - intros lo Hmax Hmin Hlo. rewrite Hown. by apply lastApplicable_min.
  - intros Hmax Hmin Hreq. rewrite Hown.
    unfold Spec.lastApplicable, Spec.maxLengthError, Spec.minLengthError,
      Spec.requiredError.
    rewrite Hmax, Hmin, Hreq. by destruct (maxLength field), (minLength field).
  - intros Hmax Hmin Hreq. rewrite Hown.
    unfold Spec.lastApplicable, Spec.maxLengthError, Spec.minLengthError,
      Spec.requiredError.
    rewrite Hmax, Hmin, Hreq. by destruct (maxLength field), (minLength field).
  - intros s lo Hr Hlo Hv Hs Hws Hlen Hmax. split_and!.
    + apply requiredRule_required; [exact Hr|]. right. left. by exists s.
    + rewrite Hown. apply lastApplicable_min; [exact Hlo|]. split; [|exact Hmax].
      rewrite Hv. by apply (minLengthRule_string field s lo Hlo).
    + intros H. symmetry in H. by apply required_min_distinct in H.
Qed.

Lemma last_applicable_rule_wins_witness :
  let st := handleInputChange "name" (VString " ") initial in
  requiredRule Sample.nameField (formValues st !! "name") = true
  /\ (validateFields (formValues st) [Sample.nameField]).1 !! "name"
     = Some "Name must be at least 2 characters".
Proof.
  intros st.
  destruct (last_applicable_rule_wins Sample.nameForm 0 st
              (Sample.section 1 [Sample.nameField]) Sample.nameField)
    as (_ & _ & _ & _ & _ & _ & H).
  - reflexivity.
  - vm_compute. apply NoDup_cons. split; [apply not_elem_of_nil|apply NoDup_nil_2].
  - apply list_elem_of_here.
  - reflexivity.
  - destruct (H " " 2%Z) as (H1 & H2 & _); try reflexivity; try discriminate.
    split; [exact H1|exact H2].
Defined.

End ValidateSection.

(** ** Navigation and editing *)

Section Navigation.
Import DynamicForm.

Implicit Types (formData : FormData) (st : State) (field : FormField).

Lemma index_in_range {A} (arr : list A) (i : Z) :
  (0 <= i < Z.of_nat (length arr))%Z -> is_Some (JS.index arr i).
Proof.
  intros [Hlo Hhi]. unfold JS.index.
  destruct (Z.ltb_spec i 0) as [H|_]; [lia|].
  apply lookup_lt_is_Some. lia.
Qed.

Lemma validateSection_index formData i st isValid st' :
  validateSection formData i st = Some (isValid, st') ->
  currentSection st' = currentSection st.
Proof. intros H. by apply validateSection_inv in H as (_ & _ & _ & -> & _). Qed.

(** The section index never leaves the schema. *)
Lemma reachable_index formData st :
  sections formData <> [] ->
  reachable formData st ->
  (0 <= currentSection st < Z.of_nat (length (sections formData)))%Z.
Proof.
  intros Hne. induction 1 as [|st e st' _ IH Hstep].
  - simpl. destruct (sections formData); [done|simpl; lia].
  - destruct e; simpl in Hstep.
    + by injection Hstep as <-.
    + by injection Hstep as <-.
    + unfold goToNextSection in Hstep.
      destruct (validateSection _ _ _) as [[[] st1]|] eqn:E; [| |discriminate];
        apply validateSection_index in E.
      * destruct (Z.ltb_spec (currentSection st)
                    (Z.of_nat (length (sections formData)) - 1));
          injection Hstep as <-; simpl; lia.
      * injection Hstep as <-. lia.
    + injection Hstep as <-. unfold goToPrevSection.
      destruct (Z.ltb_spec 0 (currentSection st)); simpl; lia.
    + unfold handleSubmit in Hstep.
      destruct (validateSection _ _ _) as [[b st1]|] eqn:E; [|discriminate].
      apply validateSection_index in E. injection Hstep as <-. lia.
Qed.

(** Hence no navigation step of a rendered form throws. *)
Lemma reachable_step_returns formData st e :
  sections formData <> [] ->
  reachable formData st ->
  is_Some (step formData st e).
Proof.
  intros Hne Hreach.
  destruct (index_in_range (sections formData) (currentSection st)
              (reachable_index formData st Hne Hreach)) as [section Hsec].
  destruct (validateSection_runs formData (currentSection st) st section Hsec)
    as (isValid & st1 & Hrun & _).
  destruct e; simpl; eauto.
  - unfold goToNextSection. rewrite Hrun.
    destruct isValid; [destruct (_ <? _)%Z|]; eauto.
  - unfold handleSubmit. rewrite Hrun. eauto.
Qed.

(** A one-field list has plain ids when its field has. *)
Lemma plainIds_singleton field :
  JSObject.plainKey (fieldId field) -> Schema.plainIds [field].
Proof. intros H f Hin. apply list_elem_of_singleton in Hin. by subst. Qed.



(** C7.  In every state the component can be in, [handleInputChange]
    leaves no error entry for the edited field, whatever the new value,
    stores the new value whole, and keeps the entries of all other
    fields. *)
Theorem handleInputChange_clears_error formData st id v :
  reachable formData st ->
  let st' := handleInputChange id v st in
  formErrors st' !! id = None
  /\ formValues st' !! id = Some v
  /\ (forall k, k <> id -> formErrors st' !! k = formErrors st !! k)
  /\ (forall k, k <> id -> formValues st' !! k = formValues st !! k)
  /\ currentSection st' = currentSection st.
Proof.
  intros Hreach st'. pose proof (reachable_nonempty formData st Hreach) as Hne.
  subst st'. unfold handleInputChange. simpl.
  destruct (formErrors st !! id) as [msg|] eqn:E; simpl.
  - assert (JS.truthyString msg = true) as ->.
    { apply truthyString_true. eapply Hne, E. }
    split_and!; try done.
    + apply lookup_delete_eq.
    + apply lookup_insert_eq.
    + intros k Hk. by apply lookup_delete_ne.
    + intros k Hk. by apply lookup_insert_ne.
  - split_and!; try done.
    + apply lookup_insert_eq.
    + intros k Hk. by apply lookup_insert_ne.
Qed.

(** The state after a refused advance on the one-section sample form. *)
Lemma refused_reachable :
  reachable Sample.nameForm
    {| currentSection := 0; formValues := ∅;
       formErrors := {["name" := "Name is required"]} |}.
Proof.
  apply (reachable_step Sample.nameForm initial Next); [apply reachable_initial|].
  vm_compute. reflexivity.
Defined.

Lemma handleInputChange_clears_error_witness :
  let st := {| currentSection := 0; formValues := ∅;
               formErrors := {["name" := "Name is required"]} |} in
  formErrors st !! "name" = Some "Name is required"
  /\ minLengthRule Sample.nameField (Some (VString "A")) = true
  /\ formErrors (handleInputChange "name" (VString "A") st) !! "name" = None.
Proof.
  intros st. split; [reflexivity|]. split; [reflexivity|].
  apply (handleInputChange_clears_error Sample.nameForm st "name" (VString "A")
           refused_reachable).
Defined.

(** C8.  [goToPrevSection] from an index above 0 yields the index
    minus one, at index 0 it changes nothing; it never validates: the
    values and the errors are kept, and the new index does not depend
    on them. *)
Theorem goToPrevSection_unconditional st :
  ((0 < currentSection st)%Z ->
   currentSection (goToPrevSection st) = (currentSection st - 1)%Z)
  /\ (currentSection st = 0%Z -> goToPrevSection st = st)
  /\ formValues (goToPrevSection st) = formValues st
  /\ formErrors (goToPrevSection st) = formErrors st
  /\ (forall values errors,
        currentSection
          (goToPrevSection {| currentSection := currentSection st;
                              formValues := values; formErrors := errors |})
        = currentSection (goToPrevSection st)).
Proof.
  unfold goToPrevSection. split_and!.
  - intros H. apply Z.ltb_lt in H. by rewrite H.
  - by intros ->.
  - by destruct (_ <? _)%Z.
  - by destruct (_ <? _)%Z.
  - intros values errors. simpl. by destruct (_ <? _)%Z.
Qed.

Lemma goToPrevSection_unconditional_witness :
  let st := {| currentSection := 1; formValues := ∅;
               formErrors := {["name" := "Name is required"]} |} in
  currentSection (goToPrevSection st) = 0%Z
  /\ goToPrevSection initial = initial.
Proof.
  intros st. split.
  - apply (proj1 (goToPrevSection_unconditional st)). reflexivity.
  - apply (proj1 (proj2 (goToPrevSection_unconditional initial))). reflexivity.
Defined.

End Navigation.

(** ** The login flow *)

Section Login.

Implicit Types (userData : App.User) (st : App.State) (msg : option string).

Lemma surfacedMessage_orElse msg :
  JS.orElse msg "Failed to register user" = Spec.surfacedMessage msg.
Proof. by destruct msg as [[|c m]|]. Qed.

Lemma isUserExists_true msg :
  App.isUserExists {| App.message := msg |} = true <-> msg = Some App.userExistsMessage.
Proof.
  unfold App.isUserExists. simpl. destruct msg as [m|]; [|split; discriminate].
  rewrite String.eqb_eq. split; congruence.
Qed.

(** What [registerUser] leaves behind for a response that was received
    and parsed, by the [ok] flag and the test on the message. *)
Lemma registerUser_respond userData isOk msg st :
  App.after (App.registerUser userData (App.respond isOk msg)) st
  = {| App.user :=
         if isOk || App.isUserExists {| App.message := msg |}
         then Some userData else App.user st;
       App.formData := App.formData st;
       App.isLoading := false;
       App.error := if isOk then None else Some (JS.orElse msg "Failed to register user");
       App.isLoggedIn :=
         if isOk || App.isUserExists {| App.message := msg |}
         then true else App.isLoggedIn st |}.
Proof.
  unfold App.after, App.registerUser, App.respond, App.tryCatchFinally, mbind, mret,
    mthrow, App.M_bind, App.M_ret, App.M_throw, App.awaitFetch, App.awaitJson.
  simpl. destruct (App.isUserExists _), isOk; reflexivity.
Qed.

(** A rejected request or an unreadable body authenticates nobody and
    shows the text of the thrown error. *)
Lemma registerUser_rejected userData e st :
  App.after (App.registerUser userData (App.FetchRejects e)) st
  = {| App.user := App.user st; App.formData := App.formData st;
       App.isLoading := false; App.error := Some (App.errorText e);
       App.isLoggedIn := App.isLoggedIn st |}.
Proof. reflexivity. Qed.

Lemma registerUser_unreadable userData isOk e st :
  App.after (App.registerUser userData
               (App.FetchResolves {| App.ok := isOk; App.json := App.JsonRejects e |})) st
  = {| App.user := App.user st; App.formData := App.formData st;
       App.isLoading := false; App.error := Some (App.errorText e);
       App.isLoggedIn := App.isLoggedIn st |}.
Proof. reflexivity. Qed.


(** [registerUser] on a response whose body was parsed. *)
Lemma registerUser_parsed userData isOk msg st :
  let st' := App.after (App.registerUser userData (App.respond isOk msg)) st in
  (isOk = true \/ msg = Some App.userExistsMessage ->
   App.isLoggedIn st' = true /\ App.user st' = Some userData)
  /\ (isOk = false -> msg <> Some App.userExistsMessage ->
      App.isLoggedIn st' = App.isLoggedIn st
      /\ App.user st' = App.user st
      /\ App.error st' = Some (Spec.surfacedMessage msg))
  /\ (App.isLoggedIn st = false ->
      (App.isLoggedIn st' = true <-> isOk = true \/ msg = Some App.userExistsMessage))
  /\ (forall m, isOk = false -> msg = Some m -> m <> EmptyString ->
                App.error st' = Some m)
  /\ (isOk = true -> App.error st' = None)
  /\ App.isLoading st' = false
  /\ App.formData st' = App.formData st.
Proof.
  intros st'. subst st'. rewrite registerUser_respond. simpl.
  pose proof (isUserExists_true msg) as Hex.
  destruct (App.isUserExists _) eqn:E.
  - assert (msg = Some App.userExistsMessage) as Hmsg by (by apply Hex).
    subst msg. rewrite orb_true_r. split_and!; try done.
    + tauto.
    + intros m -> [= <-] _. reflexivity.
    + by intros ->.
  - assert (msg <> Some App.userExistsMessage) as Hmsg.
    { intros H. apply Hex in H. discriminate. }
    rewrite orb_false_r. split_and!; try done.
    + intros [->|H]; [done|contradiction].
    + intros -> _. by rewrite surfacedMessage_orElse.
    + intros Hst. destruct isOk; [tauto|]. rewrite Hst. split; [discriminate|].
      intros [[=]|H]. contradiction.
    + intros m -> -> Hm. by destruct m.
    + by intros ->.
Qed.

(** Every outcome of the request is a parsed response, a rejected
    request or a response whose body does not parse. *)
Lemma outcome_cases (o : App.FetchOutcome) :
  (exists isOk msg, o = App.respond isOk msg)
  \/ (exists e, o = App.FetchRejects e)
  \/ (exists isOk e,
        o = App.FetchResolves {| App.ok := isOk; App.json := App.JsonRejects e |}).
Proof.
  destruct o as [e|[isOk [e|[msg]]]]; [right; left|right; right|left]; eauto.
Qed.



(** C10.  On a response that is not ok and whose message is exactly
    "User already exists. Fetch /get-form to get form json", one call
    of [registerUser] sets the user, marks the session logged in, and
    records that same message as the error shown. *)
Theorem registerUser_user_exists_sets_error userData st :
  let st' := App.after
               (App.registerUser userData
                  (App.respond false
                     (Some "User already exists. Fetch /get-form to get form json")))
               st in
  App.user st' = Some userData
  /\ App.isLoggedIn st' = true
  /\ App.error st' = Some "User already exists. Fetch /get-form to get form json"
  /\ App.isLoading st' = false.
Proof. intros st'. subst st'. rewrite registerUser_respond. by split_and!. Qed.

End Login.

(** ** Further properties of the validator *)

Section ValidatorProperties.
Import DynamicForm.

Implicit Types (formData : FormData) (st : State) (field : FormField)
  (values : gmap string FieldValue) (fs : list FormField) (acc : Acc).

Lemma foldl_validateField_valid values fs acc :
  (foldl (validateField values) acc fs).2
  = acc.2 && forallb (fun f => negb (Spec.anyRule f (values !! fieldId f))) fs.
Proof.
  revert acc. induction fs as [|f fs IH]; intros acc; simpl.
  - by rewrite andb_true_r.
  - by rewrite IH, validateField_valid, andb_assoc.
Qed.

(** In a section none of whose field ids names a member of
    [Object.prototype], [validateSection] returns true exactly when none
    of the three tests holds for any field of the section. *)
Theorem section_valid_iff_no_rule_fires formData i st section :
  JS.index (sections formData) i = Some section ->
  Schema.plainIds (fields section) ->
  exists isValid st',
    validateSection formData i st = Some (isValid, st')
    /\ (isValid = true <->
        forall field, field ∈ fields section ->
          requiredRule field (formValues st !! fieldId field) = false
          /\ minLengthRule field (formValues st !! fieldId field) = false
          /\ maxLengthRule field (formValues st !! fieldId field) = false).
Proof.
  intros Hsec _. unfold validateSection. rewrite Hsec.
  destruct (validateFields _ _) as [newErrors valid] eqn:E.
  eexists _, _. split; [reflexivity|].
  replace valid with (validateFields (formValues st) (fields section)).2 by by rewrite E.
  unfold validateFields. rewrite foldl_validateField_valid. simpl.
  rewrite forallb_forall. unfold Spec.anyRule. split.
  - intros H field Hin. apply list_elem_of_In, H, negb_true_iff in Hin.
    apply orb_false_elim in Hin as [[Hr Hm]%orb_false_elim Hx]. by split_and!.
  - intros H field Hin. apply list_elem_of_In, H in Hin as (-> & -> & ->). reflexivity.
Qed.

Lemma section_valid_iff_no_rule_fires_witness :
  let st := handleInputChange "name" (VString "Alice") initial in
  exists isValid st',
    validateSection Sample.nameForm 0 st = Some (isValid, st')
    /\ (isValid = true <->
        forall field, field ∈ [Sample.nameField] ->
          requiredRule field (formValues st !! fieldId field) = false
          /\ minLengthRule field (formValues st !! fieldId field) = false
          /\ maxLengthRule field (formValues st !! fieldId field) = false).
Proof.
  intros st.
  apply (section_valid_iff_no_rule_fires Sample.nameForm 0 st
           (Sample.section 1 [Sample.nameField])).
  - reflexivity.
  - intros field Hin. apply list_elem_of_singleton in Hin. subst field. reflexivity.
Defined.

Lemma lastApplicable_max field value hi :
  maxLength field = Some hi ->
  (Spec.lastApplicable field value = Some (maxLengthMessage field hi)
   <-> maxLengthRule field value = true).
Proof.
  intros Hhi.
  unfold Spec.lastApplicable, Spec.maxLengthError, Spec.minLengthError, Spec.requiredError.
  rewrite Hhi.
  destruct (maxLengthRule field value); [done|].
  destruct (minLength field) as [lo|];
    [destruct (minLengthRule field value)|]; try destruct (requiredRule field value);
    split; try done; intros [= H];
    first [ by apply min_max_distinct in H | by apply required_max_distinct in H ].
Qed.



End ValidatorProperties.

(** ** Validation against the component state *)

Section ValidationState.
Import DynamicForm.

Implicit Types (formData : FormData) (st : State) (field : FormField)
  (values : gmap string FieldValue) (fs : list FormField) (acc : Acc).

(** Validating again without an edit in between changes nothing: the
    second call returns the same boolean and leaves the state of the
    first; so does a repeated [handleSubmit]. *)
Theorem validateSection_twice formData i st isValid st' :
  validateSection formData i st = Some (isValid, st') ->
  validateSection formData i st' = Some (isValid, st')
  /\ (i = currentSection st -> handleSubmit formData st' = Some st').
Proof.
  unfold handleSubmit, validateSection.
  destruct (JS.index _ i) as [section|] eqn:Hsec; [|discriminate].
  destruct (validateFields (formValues st) _) as [newErrors valid] eqn:E.
  intros [= <- <-]. simpl. rewrite E.
  rewrite (assoc_L (∪)), (idemp_L (∪)). split; [reflexivity|].
  intros ->. rewrite Hsec, E. by rewrite (assoc_L (∪)), (idemp_L (∪)).
Qed.

Lemma validateSection_twice_witness :
  let st' := {| currentSection := 0; formValues := ∅;
                formErrors := {["name" := "Name is required"]} |} in
  validateSection Sample.nameForm 0 st' = Some (false, st').
Proof.
  intros st'.
  apply (validateSection_twice Sample.nameForm 0 initial false st').
  vm_compute. reflexivity.
Defined.



Lemma lastApplicable_messageOf field value msg :
  Spec.lastApplicable field value = Some msg -> Schema.messageOf field msg.
Proof.
  unfold Spec.lastApplicable, Spec.maxLengthError, Spec.minLengthError, Spec.requiredError,
    Schema.messageOf.
  destruct (maxLength field) as [hi|] eqn:Ehi, (minLength field) as [lo|] eqn:Elo,
    (maxLengthRule field value), (minLengthRule field value), (requiredRule field value);
    intros [= <-]; eauto.
Qed.

Lemma foldl_validateField_messageOf values fs acc k msg :
  (foldl (validateField values) acc fs).1 !! k = Some msg ->
  acc.1 !! k = Some msg
  \/ exists field, field ∈ fs /\ fieldId field = k /\ Schema.messageOf field msg.
Proof.
  revert acc. induction fs as [|f fs IH]; intros acc; simpl; [by left|].
  intros [H|(field & Hin & Hk & Hm)]%IH.
  - rewrite validateField_errors in H.
    destruct (Spec.lastApplicable f _) as [m|] eqn:E; [|by left].
    rewrite lookup_insert in H. case_decide as Hd; [|by left].
    injection H as <-. right. exists f. split_and!; [apply list_elem_of_here|done|].
    eapply lastApplicable_messageOf, E.
  - right. exists field. split_and!; [by apply list_elem_of_further|done|done].
Qed.

Lemma index_elem_of {A} (arr : list A) (i : Z) (x : A) :
  JS.index arr i = Some x -> x ∈ arr.
Proof.
  unfold JS.index. destruct (_ <? _)%Z; [discriminate|]. apply list_elem_of_lookup_2.
Qed.

Lemma validateSection_ownsMessage formData i st isValid st' :
  validateSection formData i st = Some (isValid, st') ->
  (forall k msg, formErrors st !! k = Some msg -> Schema.ownsMessage formData k msg) ->
  forall k msg, formErrors st' !! k = Some msg -> Schema.ownsMessage formData k msg.
Proof.
  intros (section & Hsec & _ & _ & _ & ->)%validateSection_inv Hst k msg.
  intros [Hk|[_ Hk]]%lookup_union_Some_raw; [|by apply Hst].
  apply foldl_validateField_messageOf in Hk as [Hk|(field & Hin & Hid & Hm)].
  - simpl in Hk. by rewrite lookup_empty in Hk.
  - exists section, field. split_and!; try done. eapply index_elem_of, Hsec.
Qed.

(** Whatever the user does, every entry of the error mapping sits under
    the id of a field of the schema and holds one of that field's three
    messages. *)
Theorem errors_belong_to_schema formData st k msg :
  reachable formData st ->
  formErrors st !! k = Some msg ->
  Schema.ownsMessage formData k msg.
Proof.
  intros Hreach. revert k msg. induction Hreach as [|st e st' _ IH Hstep].
  - intros k msg. simpl. by rewrite lookup_empty.
  - assert (forall id v k msg,
              formErrors (handleInputChange id v st) !! k = Some msg ->
              Schema.ownsMessage formData k msg) as Hedit.
    { intros id v k msg. simpl. destruct (JS.truthyOptString _); [|apply IH].
      intros [_ Hk]%lookup_delete_Some. by apply IH. }
    destruct e; simpl in Hstep.
    + injection Hstep as <-. apply Hedit.
    + injection Hstep as <-. apply Hedit.
    + unfold goToNextSection in Hstep.
      destruct (validateSection _ _ _) as [[[] st1]|] eqn:E; [| |discriminate].
      * pose proof (validateSection_ownsMessage _ _ _ _ _ E IH) as H1.
        destruct (_ <? _)%Z; injection Hstep as <-; exact H1.
      * injection Hstep as <-. eapply validateSection_ownsMessage; eauto.
    + injection Hstep as <-. unfold goToPrevSection. destruct (_ <? _)%Z; exact IH.
    + unfold handleSubmit in Hstep.
      destruct (validateSection _ _ _) as [[b st1]|] eqn:E; [|discriminate].
      injection Hstep as <-. eapply validateSection_ownsMessage; eauto.
Qed.

Lemma errors_belong_to_schema_witness :
  Schema.ownsMessage Sample.nameForm "name" "Name is required".
Proof.
  apply (errors_belong_to_schema Sample.nameForm
           {| currentSection := 0; formValues := ∅;
              formErrors := {["name" := "Name is required"]} |} "name" "Name is required").
  - exact refused_reachable.
  - reflexivity.
Defined.

End ValidationState.

(** ** The checkbox group over time *)

Section CheckboxOverTime.
Import DynamicForm.

Implicit Types (formData : FormData) (st : State) (field : FormField).

Lemma toggle_nil v checked : toggle [] v checked = [].
Proof. by destruct checked. Qed.

Lemma checkboxValues_listsEmpty st field :
  Schema.listsEmpty (formValues st) -> checkboxValues st field = [].
Proof.
  intros Hst. unfold checkboxValues, renderedValue.
  destruct (formValues st !! fieldId field) as [[s|l]|] eqn:E; simpl; try done.
  - by destruct (JS.truthyString s).
  - by apply Hst in E.
Qed.

Lemma reachable_listsEmpty formData st :
  reachable formData st -> Schema.listsEmpty (formValues st).
Proof.
  intros Hreach.
  induction Hreach as [|st e st' _ IH Hstep].
  - intros k l. simpl. by rewrite lookup_empty.
  - destruct e; simpl in Hstep.
    + injection Hstep as <-. intros k l. simpl. rewrite lookup_insert.
      case_decide; [discriminate|apply IH].
    + injection Hstep as <-. intros k l. unfold checkboxOnChange. simpl.
      rewrite lookup_insert. case_decide; [|apply IH].
      rewrite checkboxValues_listsEmpty, toggle_nil by exact IH. by intros [= <-].
    + unfold goToNextSection in Hstep.
      destruct (validateSection _ _ _) as [[[] st1]|] eqn:E; [| |discriminate];
        apply validateSection_inv in E as (_ & _ & _ & _ & Hv & _).
      * destruct (_ <? _)%Z; injection Hstep as <-; simpl; by rewrite Hv.
      * injection Hstep as <-. by rewrite Hv.
    + injection Hstep as <-. unfold goToPrevSection. by destruct (_ <? _)%Z.
    + unfold handleSubmit in Hstep.
      destruct (validateSection _ _ _) as [[b st1]|] eqn:E; [|discriminate].
      apply validateSection_inv in E as (_ & _ & _ & _ & Hv & _).
      injection Hstep as <-. by rewrite Hv.
Qed.

(** No click on any box ever gets an option stored: in every state the
    component can be in, each list in the value store is empty. *)
Theorem stored_lists_stay_empty formData st k l :
  reachable formData st ->
  formValues st !! k = Some (VList l) ->
  l = [].
Proof. intros Hreach. apply (reachable_listsEmpty _ _ Hreach). Qed.

(** The states after one click on a box of the sample form. *)
Lemma clicked_reachable :
  reachable Sample.hobbiesForm
    {| currentSection := 0; formValues := {["hobbies" := VList []]}; formErrors := ∅ |}.
Proof.
  apply (reachable_step Sample.hobbiesForm initial
           (Tick Sample.hobbiesField Sample.optionA true)); [apply reachable_initial|].
  vm_compute. reflexivity.
Defined.

Lemma stored_lists_stay_empty_witness :
  formValues (checkboxOnChange Sample.hobbiesField Sample.optionA true initial) !! "hobbies"
  = Some (VList [])
  /\ @nil string = [].
Proof.
  split; [reflexivity|].
  apply (stored_lists_stay_empty Sample.hobbiesForm
           {| currentSection := 0; formValues := {["hobbies" := VList []]};
              formErrors := ∅ |} "hobbies" [] clicked_reachable).
  reflexivity.
Defined.



End CheckboxOverTime.

(** ** Navigation, editing and rendering together *)

Section Composition.
Import DynamicForm DynamicFormView.

Implicit Types (formData : FormData) (st : State) (field : FormField).

(** In a form with at least one section the index always points at a
    section, and no event handler throws. *)
Theorem navigation_stays_in_schema formData st :
  sections formData <> [] ->
  reachable formData st ->
  is_Some (JS.index (sections formData) (currentSection st))
  /\ forall e, is_Some (step formData st e).
Proof.
  intros Hne Hreach. split.
  - by apply index_in_range, reachable_index.
  - intros e. by apply reachable_step_returns.
Qed.

Lemma navigation_stays_in_schema_witness :
  is_Some (JS.index (sections Sample.nameForm) 0)
  /\ forall e,
       is_Some (step Sample.nameForm
                  {| currentSection := 0; formValues := ∅;
                     formErrors := {["name" := "Name is required"]} |} e).
Proof.
  apply (navigation_stays_in_schema Sample.nameForm
           {| currentSection := 0; formValues := ∅;
              formErrors := {["name" := "Name is required"]} |}).
  - discriminate.
  - exact refused_reachable.
Defined.

(** Going back right after an advance restores the state: the advance
    was granted, so it recorded no error, and only the index moved. *)
Theorem advance_then_retreat formData st st' :
  (0 <= currentSection st)%Z ->
  goToNextSection formData st = Some st' ->
  currentSection st' <> currentSection st ->
  currentSection st' = (currentSection st + 1)%Z
  /\ goToPrevSection st' = st.
Proof.
  intros Hpos. unfold goToNextSection.
  destruct (validateSection _ _ _) as [[isValid st1]|] eqn:E; [|discriminate].
  apply validateSection_inv in E as (section & Hsec & Hvalid & Hcur & Hval & Herr).
  assert (isValid = true -> st1 = st) as Hsame.
  { intros ->. symmetry in Hvalid. apply validateFields_valid_errors in Hvalid.
    rewrite Hvalid, (left_id_L ∅ (∪)) in Herr.
    destruct st, st1; simpl in *. congruence. }
  destruct isValid.
  - rewrite Hsame by reflexivity.
    destruct (_ <? _)%Z; intros [= <-]; [|done]. intros _. simpl.
    split; [reflexivity|]. unfold goToPrevSection. simpl.
    destruct (Z.ltb_spec 0 (currentSection st + 1)) as [_|H]; [|lia].
    unfold setCurrentSection. simpl. destruct st; simpl. f_equal. lia.
  - intros [= <-]. congruence.
Qed.

Lemma advance_then_retreat_witness :
  let st := {| currentSection := 0; formValues := {["nick" := VString "Al"]};
               formErrors := ∅ |} in
  let fd := Sample.form [Sample.section 1 [Sample.nickField];
                         Sample.section 2 [Sample.nameField]] in
  goToPrevSection {| currentSection := 1; formValues := formValues st;
                     formErrors := ∅ |} = st.
Proof.
  intros st fd.
  apply (advance_then_retreat fd st).
  - simpl. lia.
  - vm_compute. reflexivity.
  - simpl. discriminate.
Defined.

(** Of two edits of one field the second alone counts, and edits of
    different fields can be swapped. *)
Theorem handleInputChange_composes st id1 id2 v1 v2 :
  handleInputChange id1 v2 (handleInputChange id1 v1 st) = handleInputChange id1 v2 st
  /\ (id1 <> id2 ->
      handleInputChange id1 v1 (handleInputChange id2 v2 st)
      = handleInputChange id2 v2 (handleInputChange id1 v1 st)).
Proof.
  unfold handleInputChange. simpl. split.
  - f_equal; [apply insert_insert_eq|].
    destruct (formErrors st !! id1) as [msg|] eqn:E; simpl.
    + destruct (JS.truthyString msg) eqn:Ht; simpl.
      * by rewrite lookup_delete_eq.
      * rewrite E. simpl. by rewrite Ht.
    + by rewrite E.
  - intros Hne. f_equal; [by apply insert_insert_ne|].
    destruct (JS.truthyOptString (formErrors st !! id1)) eqn:E1,
      (JS.truthyOptString (formErrors st !! id2)) eqn:E2;
      rewrite ?lookup_delete_ne, ?E1, ?E2 by done; try done.
    apply delete_delete.
Qed.

Lemma handleInputChange_composes_witness :
  handleInputChange "name" (VString "A") (handleInputChange "nick" (VString "B") initial)
  = handleInputChange "nick" (VString "B") (handleInputChange "name" (VString "A") initial).
Proof.
  apply (handleInputChange_composes initial "name" "nick" (VString "A") (VString "B")).
  discriminate.
Defined.

(** What the user has entered is what the control shows: after an edit
    the field renders the new value, a radio group marks the options
    carrying the chosen value and no other, and the field's error text is
    gone, in every state the component can be in. *)
Theorem edit_is_rendered formData st field :
  reachable formData st ->
  (forall v, renderedValue (handleInputChange (fieldId field) v st) field = v)
  /\ (forall chosen option,
        radioChecked (handleInputChange (fieldId field) (VString (optionValue chosen)) st)
          field option = true
        <-> optionValue option = optionValue chosen)
  /\ (forall v, shownError (handleInputChange (fieldId field) v st) field = None).
Proof.
  intros Hreach.
  assert (forall v, renderedValue (handleInputChange (fieldId field) v st) field = v) as Hv.
  { intros v. unfold renderedValue. simpl. rewrite lookup_insert_eq.
    destruct v as [[|c s]|l]; reflexivity. }
  split_and!.
  - exact Hv.
  - intros chosen option. unfold radioChecked. rewrite Hv, String.eqb_eq.
    split; congruence.
  - intros v. unfold shownError. simpl.
    destruct (formErrors st !! fieldId field) as [msg|] eqn:E; simpl.
    + assert (JS.truthyString msg = true) as ->.
      { apply truthyString_true. eapply reachable_nonempty; eauto. }
      by rewrite lookup_delete_eq.
    + by rewrite E.
Qed.

Lemma edit_is_rendered_witness :
  shownError (handleInputChange "name" (VString "A")
                {| currentSection := 0; formValues := ∅;
                   formErrors := {["name" := "Name is required"]} |})
    Sample.nameField = None.
Proof.
  apply (edit_is_rendered Sample.nameForm
           {| currentSection := 0; formValues := ∅;
              formErrors := {["name" := "Name is required"]} |} Sample.nameField
           refused_reachable).
Defined.



End Composition.

(** ** The section tabs *)

Section Tabs.
Import DynamicForm DynamicFormView.

(** The tab drawn active is the one of the current section and no other;
    in a form with at least one section there is always one. *)
Theorem one_tab_active formData st :
  sections formData <> [] ->
  reachable formData st ->
  (forall i, activeTabs formData st !! i = Some true
             <-> (i < length (sections formData))%nat /\ Z.of_nat i = currentSection st)
  /\ activeTabs formData st !! Z.to_nat (currentSection st) = Some true
  /\ length (activeTabs formData st) = length (sections formData).
Proof.
  intros Hne Hreach.
  assert (forall i, activeTabs formData st !! i = Some true
                    <-> (i < length (sections formData))%nat
                        /\ Z.of_nat i = currentSection st) as Hiff.
  { intros i. unfold activeTabs. rewrite list_lookup_imap.
    destruct (sections formData !! i) as [x|] eqn:E; simpl.
    - apply lookup_lt_Some in E. destruct (Z.eqb_spec (Z.of_nat i) (currentSection st)).
      + split; [by split|done].
      + split; [discriminate|]. by intros [_ ?].
    - apply lookup_ge_None in E. split; [discriminate|]. intros [? _]. lia. }
  split_and!.
  - exact Hiff.
  - pose proof (reachable_index formData st Hne Hreach). apply Hiff. lia.
  - unfold activeTabs. apply length_imap.
Qed.

Lemma one_tab_active_witness :
  activeTabs Sample.nameForm
    {| currentSection := 0; formValues := ∅;
       formErrors := {["name" := "Name is required"]} |} !! 0%nat = Some true.
Proof.
  apply (proj1 (proj2 (one_tab_active Sample.nameForm
                         {| currentSection := 0; formValues := ∅;
                            formErrors := {["name" := "Name is required"]} |}
                         ltac:(discriminate) refused_reachable))).
Defined.

End Tabs.

(** ** The login form *)

Section LoginFormProperties.

Implicit Types (st : LoginForm.State).

Lemma blank_trim s : negb (JS.truthyString (JS.trim s)) = Spec.allWhiteSpace s.
Proof.
  destruct (Spec.allWhiteSpace s) eqn:E.
  - apply trim_nil in E. by rewrite E.
  - apply negb_false_iff, truthyString_true. intros H%trim_nil. congruence.
Qed.

Lemma validationErrors_lookup st k :
  LoginForm.validationErrors st !! k
  = if decide (k = "name")
    then (if Spec.allWhiteSpace (LoginForm.name st) then Some "Name is required" else None)
    else if decide (k = "rollNumber")
    then (if Spec.allWhiteSpace (LoginForm.rollNumber st)
          then Some "Roll Number is required" else None)
    else None.
Proof.
  unfold LoginForm.validationErrors. rewrite !blank_trim.
  destruct (Spec.allWhiteSpace (LoginForm.rollNumber st)),
    (Spec.allWhiteSpace (LoginForm.name st));
    repeat case_decide; subst;
    rewrite ?lookup_insert_eq, ?lookup_insert_ne, ?lookup_empty by done; done.
Qed.

Lemma validationErrors_size st :
  (size (LoginForm.validationErrors st) =? 0)%nat
  = negb (Spec.allWhiteSpace (LoginForm.rollNumber st))
    && negb (Spec.allWhiteSpace (LoginForm.name st)).
Proof.
  unfold LoginForm.validationErrors. rewrite !blank_trim.
  destruct (Spec.allWhiteSpace (LoginForm.rollNumber st)),
    (Spec.allWhiteSpace (LoginForm.name st));
    rewrite ?map_size_insert, ?lookup_insert_ne, ?lookup_empty, ?map_size_empty by done;
    reflexivity.
Qed.

(** [handleSubmit] hands a user to [onSubmit] exactly when both inputs
    hold something other than white space, and then hands on the inputs
    as typed, untrimmed; otherwise it records "... is required" for
    exactly the blank inputs.  Either way the errors of an earlier
    attempt are replaced, and the inputs are kept. *)
Theorem login_submits_iff_filled st :
  let result := LoginForm.handleSubmit st in
  (result.2 = Some {| App.rollNumber := LoginForm.rollNumber st;
                      App.name := LoginForm.name st |}
   <-> Spec.allWhiteSpace (LoginForm.rollNumber st) = false
       /\ Spec.allWhiteSpace (LoginForm.name st) = false)
  /\ (result.2 = None
      <-> Spec.allWhiteSpace (LoginForm.rollNumber st) = true
          \/ Spec.allWhiteSpace (LoginForm.name st) = true)
  /\ LoginForm.formErrors result.1 !! "rollNumber"
     = (if Spec.allWhiteSpace (LoginForm.rollNumber st)
        then Some "Roll Number is required" else None)
  /\ LoginForm.formErrors result.1 !! "name"
     = (if Spec.allWhiteSpace (LoginForm.name st) then Some "Name is required" else None)
  /\ (forall k, k <> "rollNumber" -> k <> "name" ->
                LoginForm.formErrors result.1 !! k = None)
  /\ LoginForm.rollNumber result.1 = LoginForm.rollNumber st
  /\ LoginForm.name result.1 = LoginForm.name st.
Proof.
  unfold LoginForm.handleSubmit, LoginForm.validateForm.
  rewrite validationErrors_size. cbn [fst snd LoginForm.formErrors LoginForm.rollNumber
                                       LoginForm.name].
  split_and!.
  - destruct (Spec.allWhiteSpace (LoginForm.rollNumber st)),
      (Spec.allWhiteSpace (LoginForm.name st)); cbn [negb andb];
      split; intros H; try done; by destruct H.
  - destruct (Spec.allWhiteSpace (LoginForm.rollNumber st)),
      (Spec.allWhiteSpace (LoginForm.name st)); cbn [negb andb];
      split; intros H; try done; try tauto; by destruct H.
  - rewrite validationErrors_lookup. by repeat case_decide.
  - rewrite validationErrors_lookup. by repeat case_decide.
  - intros k H1 H2. rewrite validationErrors_lookup. by repeat case_decide.
  - reflexivity.
  - reflexivity.
Qed.

Lemma login_submits_iff_filled_witness :
  (LoginForm.handleSubmit
     {| LoginForm.rollNumber := " 42 "; LoginForm.name := "Alice";
        LoginForm.formErrors := {["name" := "Name is required"]} |}).2
  = Some {| App.rollNumber := " 42 "; App.name := "Alice" |}.
Proof.
  apply (proj1 (login_submits_iff_filled
                  {| LoginForm.rollNumber := " 42 "; LoginForm.name := "Alice";
                     LoginForm.formErrors := {["name" := "Name is required"]} |})).
  split; vm_compute; reflexivity.
Defined.

(** While a request is pending the button is disabled: a click neither
    submits nor touches the form. *)
Lemma clickLogin_loading st : LoginForm.clickLogin true st = (st, None).
Proof. reflexivity. Qed.

End LoginFormProperties.

(** ** Fetching the form and the whole login flow *)

Section FormFetch.

Implicit Types (userData : App.User) (st : App.State) (server : AppForm.Server)
  (msg : option string) (f : option DynamicForm.FormData).

Lemma orElse_nonempty msg d : d <> EmptyString -> JS.truthyString (JS.orElse msg d) = true.
Proof.
  intros Hd. unfold JS.orElse. destruct msg as [m|]; [destruct (JS.truthyString m) eqn:E|];
    try done; by apply truthyString_true.
Qed.

(** The state [fetchFormData] leaves, by what the service answers. *)
Lemma fetchFormData_after server roll st :
  App.after (AppForm.fetchFormData server roll) st
  = match server roll with
    | AppForm.FetchResolves
        {| AppForm.ok := true; AppForm.json := AppForm.JsonResolves d |} =>
        {| App.user := App.user st; App.formData := AppForm.form d;
           App.isLoading := false; App.error := None;
           App.isLoggedIn := App.isLoggedIn st |}
    | AppForm.FetchResolves
        {| AppForm.ok := false; AppForm.json := AppForm.JsonResolves d |} =>
        {| App.user := App.user st; App.formData := App.formData st;
           App.isLoading := false;
           App.error := Some (JS.orElse (AppForm.message d) "Failed to fetch form data");
           App.isLoggedIn := App.isLoggedIn st |}
    | AppForm.FetchResolves {| AppForm.json := AppForm.JsonRejects e |}
    | AppForm.FetchRejects e =>
        {| App.user := App.user st; App.formData := App.formData st;
           App.isLoading := false; App.error := Some (AppForm.errorText e);
           App.isLoggedIn := App.isLoggedIn st |}
    end.
Proof.
  unfold App.after, AppForm.fetchFormData, App.tryCatchFinally, mbind, mret, mthrow,
    App.M_bind, App.M_ret, App.M_throw, AppForm.awaitFetch, AppForm.awaitJson.
  simpl. destruct (server roll) as [e|[[] [e|d]]]; reflexivity.
Qed.

(** The effect asks for the form only in a logged-in session with a
    user; otherwise it leaves the state alone. *)
Lemma effect_after server st :
  App.after (AppForm.effect server) st
  = match App.isLoggedIn st, App.user st with
    | true, Some u => App.after (AppForm.fetchFormData server (App.rollNumber u)) st
    | _, _ => st
    end.
Proof.
  unfold AppForm.effect, App.after. by destruct (App.isLoggedIn st), (App.user st).
Qed.





End FormFetch.

(** ** Empty required fields and unchecked boxes *)

Section EmptyAndUnchecked.
Import DynamicForm.

Implicit Types (field : FormField) (values : gmap string FieldValue)
  (fs : list FormField) (st : State).

(** A required field, whose id names no member of [Object.prototype],
    left without a value, with the empty string or with the empty list
    is reported as required whatever its length bounds are: the length
    rules never fire on such a value. *)
Theorem required_field_left_empty values fs field :
  NoDup (fieldId <$> fs) ->
  field ∈ fs ->
  JSObject.plainKey (fieldId field) ->
  required field = true ->
  values !! fieldId field = None
  \/ values !! fieldId field = Some (VString "")
  \/ values !! fieldId field = Some (VList []) ->
  (validateFields values fs).1 !! fieldId field = Some (requiredMessage field)
  /\ (validateFields values fs).2 = false.
Proof.
  intros Hnd Hin _ Hr Hv.
  assert (requiredRule field (values !! fieldId field) = true) as Hreq.
  { apply requiredRule_required; [exact Hr|].
    destruct Hv as [-> | [-> | ->]]; [by left| |by right; right].
    right. left. by exists "". }
  assert (minLengthRule field (values !! fieldId field) = false
          /\ maxLengthRule field (values !! fieldId field) = false) as [Hmin Hmax].
  { unfold minLengthRule, maxLengthRule.
    destruct Hv as [-> | [-> | ->]]; by destruct (minLength field), (maxLength field). }
  split.
  - rewrite validateFields_own by assumption.
    unfold Spec.lastApplicable, Spec.maxLengthError, Spec.minLengthError, Spec.requiredError.
    rewrite Hmin, Hmax, Hreq. by destruct (maxLength field), (minLength field).
  - eapply validateFields_invalid; [exact Hin|]. unfold Spec.anyRule. by rewrite Hreq.
Qed.

Lemma required_field_left_empty_witness :
  (validateFields {["name" := VString ""]} [Sample.nameField]).1 !! "name"
  = Some "Name is required".
Proof.
  apply (required_field_left_empty {["name" := VString ""]} [Sample.nameField]
           Sample.nameField).
  - vm_compute. apply NoDup_cons. split; [apply not_elem_of_nil|apply NoDup_nil_2].
  - apply list_elem_of_here.
  - reflexivity.
  - reflexivity.
  - right. left. reflexivity.
Defined.

(** Unchecking a box stores the list without the first occurrence of the
    box's value: the elements around it keep their order, later
    duplicates stay, and a list that lacks the value is stored as it is. *)
Theorem uncheck_removes_first_occurrence st field option :
  let l := checkboxValues st field in
  let v := optionValue option in
  let l' := toggle l v false in
  formValues (checkboxOnChange field option false st) !! fieldId field = Some (VList l')
  /\ l' = Spec.removeFirst v l
  /\ (v ∉ l -> l' = l)
  /\ (forall l1 l2, l = l1 ++ v :: l2 -> v ∉ l1 -> l' = l1 ++ l2)
  /\ (v ∈ l -> S (length l') = length l).
Proof.
  intros l v l'. subst l'. split_and!.
  - apply checkboxOnChange_value.
  - apply toggle_unchecked.
  - apply toggle_unchecked_absent.
  - intros l1 l2 -> H. by apply toggle_unchecked_split.
  - rewrite toggle_unchecked. generalize l. clear.
    induction l as [|x l IH]; [by intros ?%elem_of_nil|].
    simpl. destruct (String.eqb_spec x v) as [->|Hne]; [done|].
    intros [?|Hin]%elem_of_cons; [congruence|]. simpl. by rewrite IH.
Qed.

Lemma uncheck_removes_first_occurrence_witness :
  toggle ["b"; "a"; "c"; "a"] "a" false = ["b"; "c"; "a"].
Proof.
  pose proof (uncheck_removes_first_occurrence
                {| currentSection := 0;
                   formValues := {["hobbies" := VList ["b"; "a"; "c"; "a"]]};
                   formErrors := ∅ |} Sample.hobbiesField Sample.optionA)
    as (_ & _ & _ & H & _).
  apply (H ["b"] ["c"; "a"]).
  - reflexivity.
  - apply not_elem_of_cons. split; [discriminate|apply not_elem_of_nil].
Defined.

End EmptyAndUnchecked.
